(** * The Monaco editor host component (website/src/components/Monaco.vue)

    A shallow embedding of the component's script: the worker dispatch of
    [MonacoEnvironment.getWorker], the props declaration, the mount and
    unmount hooks, the two watchers and the two editor listeners.

    The component drives the monaco-editor library, which is not part of
    the repository.  The library is represented by a small store of
    editors, text models and decoration collections that offers the calls
    the component makes ([editor.create], [createModel], [setModel],
    [createDecorationsCollection], [set], [dispose], ...).  Every call is
    recorded, with its arguments and the store it leaves behind, so that
    statements on what the component hands to the library, and on the
    order and the number of its calls, can be made.

    The store follows the objects as far as the script can tell them
    apart: which model an editor shows, what was handed to a collection,
    which objects the script has disposed.  It does not follow what the
    library derives from them on its own: the ranges as drawn inside the
    document, the language a language id resolves to, the cleaning up
    the library does behind a call.  The statements on such matters are
    therefore made on the recorded calls. *)

From Stdlib Require Import ZArith Lia.
From stdpp Require Import base option list strings.

Local Open Scope string_scope.
Local Open Scope list_scope.

(** ** Worker dispatch (first script block) *)

(** One constructor per imported worker class. *)
Inductive Worker : Set :=
  | editorWorker
  | jsonWorker
  | cssWorker
  | htmlWorker
  | tsWorker
  | yamlWorker.

(** [label === s] on strings. *)
Definition strict_eq (a b : string) : bool := String.eqb a b.

(** [getWorker(_, label)]; the first argument is ignored by the code. *)
Definition getWorker (label : string) : Worker :=
  if strict_eq label "json" then jsonWorker
  else if strict_eq label "css" || strict_eq label "scss"
          || strict_eq label "less" then cssWorker
  else if strict_eq label "html" || strict_eq label "handlebars"
          || strict_eq label "razor" then htmlWorker
  else if strict_eq label "typescript" || strict_eq label "javascript"
       then tsWorker
  else if strict_eq label "yaml" then yamlWorker
  else editorWorker.

(** ** Numbers, ranges and decorations *)

(** The numbers the component computes with.  The coordinates of a
    match are integers held in IEEE doubles; a missing array element is
    [undefined], and [undefined + 1] is [NaN]; a sum beyond the range of
    the doubles is an infinity. *)
Inductive number : Set :=
  | Int (z : Z)
  | NaN
  | Infinity (negative : bool).

(** The double nearest to the integer [x], ties going to the even
    significand: every integer up to 2^53 in size is a double; beyond,
    the doubles are the multiples of a power of two with a significand of
    53 bits, and what rounds to 2^1024 or more is an infinity. *)
Definition round_double (x : Z) : number :=
  let a := Z.abs x in
  if (a <? 2 ^ 53)%Z then Int x
  else
    let ulp := (2 ^ (Z.log2 a - 52))%Z in
    let q := (a / ulp)%Z in
    let r := (a mod ulp)%Z in
    let q' :=
      if (2 * r <? ulp)%Z then q
      else if (ulp <? 2 * r)%Z then (q + 1)%Z
      else if Z.even q then q else (q + 1)%Z in
    let y := (q' * ulp)%Z in
    if (2 ^ 1024 <=? y)%Z then Infinity (x <? 0)%Z
    else Int (Z.sgn x * y).

(** [v + k] where [v] was read from an array ([None] is [undefined]):
    the sum of two doubles is the double nearest to their exact sum. *)
Definition plus (v : option Z) (k : Z) : number :=
  match v with
  | Some z => round_double (z + k)
  | None => NaN
  end.

(** [a > b] and [a === b]: both are false as soon as one side is [NaN]. *)
Definition num_gt (a b : number) : bool :=
  match a, b with
  | Int x, Int y => (y <? x)%Z
  | Infinity false, Int _ => true
  | Infinity false, Infinity true => true
  | Int _, Infinity true => true
  | _, _ => false
  end.

Definition num_eq (a b : number) : bool :=
  match a, b with
  | Int x, Int y => (x =? y)%Z
  | Infinity s, Infinity s' => Bool.eqb s s'
  | _, _ => false
  end.

Record Range : Set := mkRange {
  startLineNumber : number;
  startColumn : number;
  endLineNumber : number;
  endColumn : number
}.

(** [new monaco.Range(a, b, c, d)].  The library's constructor stores
    the four numbers, and exchanges the two ends when the start lies
    after the end. *)
Definition new_Range (sl sc el ec : number) : Range :=
  if num_gt sl el || (num_eq sl el && num_gt sc ec)
  then mkRange el ec sl sc
  else mkRange sl sc el ec.

Record DecorationOptions : Set := { inlineClassName : string }.

Record Decoration : Set := {
  range : Range;
  options : DecorationOptions
}.

(** [transformMatch]: [const [sr, sc, er, ec] = match]. *)
Definition transformMatch (match_ : list Z) : Decoration :=
  let sr := match_ !! 0 in
  let sc := match_ !! 1 in
  let er := match_ !! 2 in
  let ec := match_ !! 3 in
  {| range := new_Range (plus sr 1) (plus sc 1) (plus er 1) (plus ec 1);
     options := {| inlineClassName := "monaco-highlight-span" |} |}.

(** ** The props of the component *)

Module Props.

(** The resolved props, as the script reads them: [props.language],
    [props.modelValue], [props.readonly], [props.highlights].  A prop
    that is [undefined] is [None]. *)
Record t : Set := {
  language : string;
  modelValue : option string;
  readonly : bool;
  highlights : option (list (list Z))
}.

End Props.

(** What the parent passes; every attribute may be left out. *)
Record Attrs : Set := {
  attr_language : option string;
  attr_modelValue : option string;
  attr_readonly : option bool;
  attr_highlights : option (list (list Z))
}.

(** [defineProps({...})]: [language] and [readonly] declare a default,
    [modelValue] and [highlights] declare none. *)
Definition defineProps (a : Attrs) : Props.t :=
  {| Props.language := default "javascript" (attr_language a);
     Props.modelValue := attr_modelValue a;
     Props.readonly := default false (attr_readonly a);
     Props.highlights := attr_highlights a |}.

(** ** The editor library: objects and store *)

(** The two closures the mount hook registers on the editor:
    [() => emits('update:modelValue', editorInstance.getValue())], which
    captures [editorInstance], and [e => emits('changeCursor', e)]. *)
Inductive ContentListener : Set :=
  | contentListener (editorInstance : nat).

Inductive CursorListener : Set :=
  | cursorListener.

(** The payload of a cursor event; the component passes it on unread. *)
Record CursorEvent : Set := {
  cursorLine : Z;
  cursorColumn : Z;
  cursorSource : string
}.

(** The options object of [monaco.editor.create]. *)
Record EditorOptions : Set := {
  opt_value : option string;
  opt_language : string;
  opt_readOnly : bool;
  opt_automaticLayout : bool;
  opt_scrollBeyondLastLine : bool;
  opt_wordWrap : string;
  opt_lineNumbersMinChars : Z;
  opt_minimap_enabled : bool;
  opt_inlineSuggest_enabled : bool
}.

Record TextModel : Set := {
  text : string;
  languageId : string;
  modelDisposed : bool
}.

Record CodeEditor : Set := {
  domElement : nat;
  editorOptions : EditorOptions;
  attached : option nat;          (* the text model shown, by identity *)
  contentListeners : list ContentListener;
  cursorListeners : list CursorListener;
  editorDisposed : bool
}.

Record DecorationsCollection : Set := {
  owner : nat;                    (* the editor it was created on *)
  decorations : list Decoration
}.

(** Objects are identified by their position in the store; a new object
    goes to the end. *)
Record Monaco : Set := {
  models : list TextModel;
  editors : list CodeEditor;
  collections : list DecorationsCollection
}.

(** The calls the component makes on the library. *)
Inductive Call : Set :=
  | editor_create (container : nat) (o : EditorOptions)
  | onDidChangeModelContent (e : nat) (l : ContentListener)
  | onDidChangeCursorPosition (e : nat) (l : CursorListener)
  | getValue (e : nat)
  | createDecorationsCollection (e : nat) (ds : list Decoration)
  | collection_set (c : nat) (ds : list Decoration)
  | getModel (e : nat)
  | createModel (value lang : string)
  | setModel (e m : nat)
  | model_dispose (m : nat)
  | editor_dispose (e : nat).

(** ** The component instance *)

(** The variables of the setup script. *)
Record Setup : Set := {
  props : Props.t;
  containerRef : option nat;      (* [containerRef.value], an element *)
  editor : option nat;            (* [editor.value] *)
  highlights : option nat         (* [let highlights], a collection *)
}.

(** The events of [defineEmits]. *)
Inductive Emitted : Set :=
  | update_modelValue (value : string)
  | changeCursor (value : CursorEvent).

Inductive Error : Set :=
  | TypeError.

Record World : Set := {
  monaco : Monaco;
  setup : Setup;
  emitted : list Emitted;         (* oldest first *)
  calls : list (Call * Monaco)    (* oldest first, with the store after *)
}.

(** ** A monad for the script: state and exceptions *)

Inductive Completion (A : Type) : Type :=
  | Normal (a : A)
  | Throw (e : Error).
Arguments Normal {A} a.
Arguments Throw {A} e.

Definition Js (A : Type) : Type := World -> Completion A * World.

Definition ret {A} (a : A) : Js A := fun w => (Normal a, w).

Definition bind {A B} (m : Js A) (k : A -> Js B) : Js B :=
  fun w =>
    match m w with
    | (Normal a, w') => k a w'
    | (Throw e, w') => (Throw e, w')
    end.

Definition throw {A} (e : Error) : Js A := fun w => (Throw e, w).

Notation "'let!' x := m 'in' k" := (bind m (fun x => k))
  (at level 10, x name, m at level 100, k at level 200).
Notation "m ;; k" := (bind m (fun _ => k))
  (at level 100, k at level 200, right associativity).

Definition get_monaco : Js Monaco := fun w => (Normal (monaco w), w).
Definition get_setup : Js Setup := fun w => (Normal (setup w), w).

Definition put_setup (s : Setup) : Js unit := fun w =>
  (Normal tt,
   {| monaco := monaco w; setup := s; emitted := emitted w; calls := calls w |}).

(** A library call: the store changes, the call is recorded. *)
Definition perform {A} (c : Call) (f : Monaco -> A * Monaco) : Js A := fun w =>
  let '(a, h) := f (monaco w) in
  (Normal a,
   {| monaco := h; setup := setup w; emitted := emitted w;
      calls := calls w ++ [(c, h)] |}).

(** [emits(...)]. *)
Definition emits (ev : Emitted) : Js unit := fun w =>
  (Normal tt,
   {| monaco := monaco w; setup := setup w; emitted := emitted w ++ [ev];
      calls := calls w |}).

Definition modify_setup (f : Setup -> Setup) : Js unit := fun w =>
  (Normal tt,
   {| monaco := monaco w; setup := f (setup w); emitted := emitted w;
      calls := calls w |}).

(** A change of the store that is not a call of the component (the user
    typing into the editor). *)
Definition modify_monaco (f : Monaco -> Monaco) : Js unit := fun w =>
  (Normal tt,
   {| monaco := f (monaco w); setup := setup w; emitted := emitted w;
      calls := calls w |}).

(** ** What the library does on each call

    An identity that names no object of the store cannot arise from the
    script, which only holds references the library returned; the
    operations leave the store as it is there. *)

Definition set_attached (m : option nat) (ed : CodeEditor) : CodeEditor :=
  {| domElement := domElement ed; editorOptions := editorOptions ed;
     attached := m; contentListeners := contentListeners ed;
     cursorListeners := cursorListeners ed;
     editorDisposed := editorDisposed ed |}.

Definition add_contentListener (l : ContentListener) (ed : CodeEditor)
  : CodeEditor :=
  {| domElement := domElement ed; editorOptions := editorOptions ed;
     attached := attached ed; contentListeners := contentListeners ed ++ [l];
     cursorListeners := cursorListeners ed;
     editorDisposed := editorDisposed ed |}.

Definition add_cursorListener (l : CursorListener) (ed : CodeEditor)
  : CodeEditor :=
  {| domElement := domElement ed; editorOptions := editorOptions ed;
     attached := attached ed; contentListeners := contentListeners ed;
     cursorListeners := cursorListeners ed ++ [l];
     editorDisposed := editorDisposed ed |}.

(** A disposed editor shows no model and has released its listeners. *)
Definition disposed_editor (ed : CodeEditor) : CodeEditor :=
  {| domElement := domElement ed; editorOptions := editorOptions ed;
     attached := None; contentListeners := []; cursorListeners := [];
     editorDisposed := true |}.

Definition update_editor (e : nat) (f : CodeEditor -> CodeEditor) (h : Monaco)
  : Monaco :=
  {| models := models h; editors := alter f e (editors h);
     collections := collections h |}.

(** [monaco.editor.create(container, options)]: a new editor showing a
    new model made of [options.value] and [options.language]. *)
Definition lib_editor_create (container : nat) (o : EditorOptions) (h : Monaco)
  : nat * Monaco :=
  (length (editors h),
   {| models := models h ++
        [{| text := default "" (opt_value o); languageId := opt_language o;
            modelDisposed := false |}];
      editors := editors h ++
        [{| domElement := container; editorOptions := o;
            attached := Some (length (models h));
            contentListeners := []; cursorListeners := [];
            editorDisposed := false |}];
      collections := collections h |}).

Definition lib_onDidChangeModelContent (e : nat) (l : ContentListener)
  (h : Monaco) : unit * Monaco :=
  (tt, update_editor e (add_contentListener l) h).

Definition lib_onDidChangeCursorPosition (e : nat) (l : CursorListener)
  (h : Monaco) : unit * Monaco :=
  (tt, update_editor e (add_cursorListener l) h).

(** [editor.getModel()]. *)
Definition lib_getModel (e : nat) (h : Monaco) : option nat * Monaco :=
  (ed ← editors h !! e; attached ed, h).

(** [editor.getValue()]: the text of the model shown, [''] without one. *)
Definition lib_getValue (e : nat) (h : Monaco) : string * Monaco :=
  (default "" (m ← fst (lib_getModel e h); text <$> models h !! m), h).

(** [collection.set(ds)]: the decorations of the collection become
    [ds], as handed over (the editor draws each range brought inside the
    document, which the store does not follow); nothing happens when the
    owning editor shows no model. *)
Definition set_decorations (ds : list Decoration) (c : DecorationsCollection)
  : DecorationsCollection :=
  {| owner := owner c; decorations := ds |}.

Definition lib_collection_set (c : nat) (ds : list Decoration) (h : Monaco)
  : unit * Monaco :=
  (tt,
   match co ← collections h !! c; fst (lib_getModel (owner co) h) with
   | Some _ =>
       {| models := models h; editors := editors h;
          collections := alter (set_decorations ds) c (collections h) |}
   | None => h
   end).

(** [editor.createDecorationsCollection(ds)]: a new, empty collection
    on which [ds] is then set. *)
Definition lib_createDecorationsCollection (e : nat) (ds : list Decoration)
  (h : Monaco) : nat * Monaco :=
  let c := length (collections h) in
  (c,
   snd (lib_collection_set c ds
          {| models := models h; editors := editors h;
             collections := collections h ++
               [{| owner := e; decorations := [] |}] |})).

(** [monaco.editor.createModel(value, language)]: a new model of the
    text [value]; [languageId] keeps the language id asked for (the
    language the library resolves it to is not followed). *)
Definition lib_createModel (value lang : string) (h : Monaco) : nat * Monaco :=
  (length (models h),
   {| models := models h ++
        [{| text := value; languageId := lang; modelDisposed := false |}];
      editors := editors h; collections := collections h |}).

(** [editor.setModel(m)]: the editor shows [m] from now on.  What the
    library does to the model replaced and to the decorations drawn on it
    is not followed. *)
Definition lib_setModel (e m : nat) (h : Monaco) : unit * Monaco :=
  (tt, update_editor e (set_attached (Some m)) h).

(** [model.dispose()]: an editor that shows the model loses it. *)
Definition dispose_model (mo : TextModel) : TextModel :=
  {| text := text mo; languageId := languageId mo; modelDisposed := true |}.

Definition detach (m : nat) (ed : CodeEditor) : CodeEditor :=
  if bool_decide (attached ed = Some m) then set_attached None ed else ed.

Definition lib_model_dispose (m : nat) (h : Monaco) : unit * Monaco :=
  (tt,
   {| models := alter dispose_model m (models h);
      editors := detach m <$> editors h;
      collections := collections h |}).

(** [editor.dispose()]: the editor is disposed, shows no model and has
    released its listeners. *)
Definition lib_editor_dispose (e : nat) (h : Monaco) : unit * Monaco :=
  (tt, update_editor e disposed_editor h).

(** ** The setup script *)

Definition set_editor (e : option nat) (s : Setup) : Setup :=
  {| props := props s; containerRef := containerRef s; editor := e;
     highlights := highlights s |}.

Definition set_highlights (c : option nat) (s : Setup) : Setup :=
  {| props := props s; containerRef := containerRef s; editor := editor s;
     highlights := c |}.

Definition set_props (p : Props.t) (s : Setup) : Setup :=
  {| props := p; containerRef := containerRef s; editor := editor s;
     highlights := highlights s |}.

Definition set_containerRef (c : option nat) (s : Setup) : Setup :=
  {| props := props s; containerRef := c; editor := editor s;
     highlights := highlights s |}.

(** [a || b] on a string that may be [undefined]: [undefined] and the
    empty string are the falsy ones. *)
Definition or_string (a : option string) (b : string) : string :=
  match a with
  | Some s => if strict_eq s "" then b else s
  | None => b
  end.

(** The options literal of the mount hook. *)
Definition create_options (p : Props.t) : EditorOptions :=
  {| opt_value := Props.modelValue p;
     opt_language := Props.language p;
     opt_readOnly := Props.readonly p;
     opt_automaticLayout := false;
     opt_scrollBeyondLastLine := false;
     opt_wordWrap := "on";
     opt_lineNumbersMinChars := 3;
     opt_minimap_enabled := false;
     opt_inlineSuggest_enabled := true |}.

(** The body of the content listener and of the cursor listener. *)
Definition run_contentListener (l : ContentListener) : Js unit :=
  match l with
  | contentListener editorInstance =>
      let! v := perform (getValue editorInstance) (lib_getValue editorInstance) in
      emits (update_modelValue v)
  end.

Definition run_cursorListener (e : CursorEvent) (l : CursorListener) : Js unit :=
  match l with
  | cursorListener => emits (changeCursor e)
  end.

(** [onMounted(() => {...})]. *)
Definition onMounted : Js unit :=
  let! s := get_setup in
  match containerRef s with
  | None => ret tt
  | Some container =>
      let o := create_options (props s) in
      let! editorInstance :=
        perform (editor_create container o) (lib_editor_create container o) in
      modify_setup (set_editor (Some editorInstance)) ;;
      (let l := contentListener editorInstance in
       perform (onDidChangeModelContent editorInstance l)
               (lib_onDidChangeModelContent editorInstance l)) ;;
      perform (onDidChangeCursorPosition editorInstance cursorListener)
              (lib_onDidChangeCursorPosition editorInstance cursorListener) ;;
      (* props.highlights?.map(transformMatch) || [] *)
      let ds := default [] ((fun l : list (list Z) => transformMatch <$> l)
                     <$> Props.highlights (props s)) in
      let! c :=
        perform (createDecorationsCollection editorInstance ds)
                (lib_createDecorationsCollection editorInstance ds) in
      modify_setup (set_highlights (Some c))
  end.

(** [watch(() => props.highlights, (matched) => {...})], the callback.
    [matched!] is erased by the compiler: [undefined.map] throws. *)
Definition watch_highlights (matched : option (list (list Z))) : Js unit :=
  let! ranges :=
    match matched with
    | Some l => ret (transformMatch <$> l)
    | None => throw TypeError
    end in
  let! s := get_setup in
  (* highlights?.set(ranges) *)
  match highlights s with
  | Some c => perform (collection_set c ranges) (lib_collection_set c ranges)
  | None => ret tt
  end.

(** [watch(() => props.language, (lang) => {...})], the callback. *)
Definition watch_language (lang : string) : Js unit :=
  let! s := get_setup in
  let! oldModel :=
    match editor s with
    | Some e => perform (getModel e) (lib_getModel e)
    | None => ret None
    end in
  let value := or_string (Props.modelValue (props s)) "" in
  let! newModel := perform (createModel value lang) (lib_createModel value lang) in
  match editor s with
  | Some e => perform (setModel e newModel) (lib_setModel e newModel)
  | None => ret tt
  end ;;
  match oldModel with
  | Some m => perform (model_dispose m) (lib_model_dispose m)
  | None => ret tt
  end.

(** [onBeforeUnmount(() => { editor.value?.dispose() })]. *)
Definition onBeforeUnmount : Js unit :=
  let! s := get_setup in
  match editor s with
  | Some e => perform (editor_dispose e) (lib_editor_dispose e)
  | None => ret tt
  end.

(** ** What happens around the script *)

(** Calling a list of listeners, in the order they were registered. *)
Fixpoint fire {L} (run : L -> Js unit) (ls : list L) : Js unit :=
  match ls with
  | [] => ret tt
  | l :: ls' => run l ;; fire run ls'
  end.

Definition set_text (t : string) (mo : TextModel) : TextModel :=
  {| text := t; languageId := languageId mo; modelDisposed := modelDisposed mo |}.

(** One edit operation in editor [e] that leaves the document text [t]:
    the library changes the model shown and then calls the content
    listeners of the editor.  An editor that shows no model cannot be
    edited. *)
Definition edit (e : nat) (t : string) : Js unit :=
  let! h := get_monaco in
  match editors h !! e with
  | Some ed =>
      match attached ed with
      | Some m =>
          modify_monaco (fun h =>
            {| models := alter (set_text t) m (models h);
               editors := editors h; collections := collections h |}) ;;
          fire run_contentListener (contentListeners ed)
      | None => ret tt
      end
  | None => ret tt
  end.

(** One cursor or selection move in editor [e]. *)
Definition move_cursor (e : nat) (ev : CursorEvent) : Js unit :=
  let! h := get_monaco in
  match editors h !! e with
  | Some ed => fire (run_cursorListener ev) (cursorListeners ed)
  | None => ret tt
  end.

(** The parent changes a prop.  A watched prop runs its callback with the
    new value when the value has changed: strings are compared by their
    characters; arrays are compared by identity, so that every array the
    parent passes anew counts as a change, and only [undefined] after
    [undefined] does not. *)
Definition set_prop_highlights (v : option (list (list Z))) : Js unit :=
  let! s := get_setup in
  modify_setup (set_props
    {| Props.language := Props.language (props s);
       Props.modelValue := Props.modelValue (props s);
       Props.readonly := Props.readonly (props s);
       Props.highlights := v |}) ;;
  match Props.highlights (props s), v with
  | None, None => ret tt
  | _, _ => watch_highlights v
  end.

Definition set_prop_language (lang : string) : Js unit :=
  let! s := get_setup in
  modify_setup (set_props
    {| Props.language := lang;
       Props.modelValue := Props.modelValue (props s);
       Props.readonly := Props.readonly (props s);
       Props.highlights := Props.highlights (props s) |}) ;;
  if strict_eq lang (Props.language (props s)) then ret tt
  else watch_language lang.

Definition set_prop_modelValue (v : option string) : Js unit :=
  modify_setup (fun s =>
    set_props {| Props.language := Props.language (props s);
                 Props.modelValue := v;
                 Props.readonly := Props.readonly (props s);
                 Props.highlights := Props.highlights (props s) |} s).

(** The component before it is mounted: nothing in the store, no editor,
    no collection. *)
Definition empty_monaco : Monaco :=
  {| models := []; editors := []; collections := [] |}.

Definition init (a : Attrs) (container : option nat) : World :=
  {| monaco := empty_monaco;
     setup := {| props := defineProps a; containerRef := container;
                 editor := None; highlights := None |};
     emitted := [];
     calls := [] |}.

(** What can happen to a component instance. *)
Inductive Step : Set :=
  | do_mount
  | do_unmount
  | do_highlights (v : option (list (list Z)))
  | do_language (lang : string)
  | do_modelValue (v : option string)
  | do_container (c : option nat)
  | do_edit (e : nat) (t : string)
  | do_move_cursor (e : nat) (ev : CursorEvent).

Definition step (st : Step) : Js unit :=
  match st with
  | do_mount => onMounted
  | do_unmount => onBeforeUnmount
  | do_highlights v => set_prop_highlights v
  | do_language lang => set_prop_language lang
  | do_modelValue v => set_prop_modelValue v
  | do_container c => modify_setup (set_containerRef c)
  | do_edit e t => edit e t
  | do_move_cursor e ev => move_cursor e ev
  end.

(** The worlds a component instance can be in. *)
Inductive reachable : World -> Prop :=
  | reachable_init a container : reachable (init a container)
  | reachable_step w st : reachable w -> reachable (snd (step st w)).

(** ** Notions used in the statements *)

(** The model an editor shows. *)
Definition shown (h : Monaco) (e : nat) : option nat :=
  ed ← editors h !! e; attached ed.

(** The component is mounted: [editor.value] is the editor [e], which
    shows the model [m], not disposed, and [highlights] is the
    collection [c] of that editor. *)
Definition Mounted (w : World) (e c m : nat) : Prop :=
  editor (setup w) = Some e
  /\ highlights (setup w) = Some c
  /\ shown (monaco w) e = Some m
  /\ modelDisposed <$> models (monaco w) !! m = Some false
  /\ owner <$> collections (monaco w) !! c = Some e.



(** The decoration from line [sl], column [sc] to line [el], column
    [ec], in the highlight class. *)
Definition highlight_span (sl sc el ec : Z) : Decoration :=
  {| range := mkRange (Int sl) (Int sc) (Int el) (Int ec);
     options := {| inlineClassName := "monaco-highlight-span" |} |}.

(** How often [model.dispose()] was called on [m] in a list of calls. *)
Fixpoint dispose_count (m : nat) (cs : list (Call * Monaco)) : nat :=
  match cs with
  | [] => 0
  | (model_dispose m', _) :: cs' =>
      (if bool_decide (m' = m) then 1 else 0) + dispose_count m cs'
  | _ :: cs' => dispose_count m cs'
  end.

(** The editors of the store that are not disposed. *)
Definition live (h : Monaco) (e : nat) : Prop :=
  editorDisposed <$> editors h !! e = Some false.

(** The decorations the mount hook starts with. *)
Definition initial_decorations (p : Props.t) : list Decoration :=
  default [] ((fun l : list (list Z) => transformMatch <$> l)
                <$> Props.highlights p).

(** The editor and the model [monaco.editor.create] makes for the mount
    hook, once both listeners are registered. *)
Definition mounted_editor (w : World) (container : nat) : CodeEditor :=
  {| domElement := container;
     editorOptions := create_options (props (setup w));
     attached := Some (length (models (monaco w)));
     contentListeners := [contentListener (length (editors (monaco w)))];
     cursorListeners := [cursorListener];
     editorDisposed := false |}.

Definition mounted_model (w : World) : TextModel :=
  {| text := default "" (Props.modelValue (props (setup w)));
     languageId := Props.language (props (setup w));
     modelDisposed := false |}.

Definition mounted_monaco (w : World) (container : nat) : Monaco :=
  {| models := models (monaco w) ++ [mounted_model w];
     editors := editors (monaco w) ++ [mounted_editor w container];
     collections := collections (monaco w) ++
       [{| owner := length (editors (monaco w));
           decorations := initial_decorations (props (setup w)) |}] |}.

(** What holds of the editors of every store the component can produce:
    an editor that is not disposed carries the two listeners of the mount
    hook, once each, and the model an editor shows is in the store. *)
Definition editors_ok (h : Monaco) : Prop :=
  forall e ed,
    editors h !! e = Some ed ->
    (editorDisposed ed = false ->
       contentListeners ed = [contentListener e]
       /\ cursorListeners ed = [cursorListener])
    /\ (forall m, attached ed = Some m -> m < length (models h)).

(** Components to try the statements on. *)

(** A component with the text "print(1)", the default language and one
    highlight, mounted on a container. *)
Definition sample_attrs : Attrs :=
  {| attr_language := None;
     attr_modelValue := Some "print(1)";
     attr_readonly := None;
     attr_highlights := Some [[0; 0; 0; 5]%Z] |}.

Definition sample_world : World := snd (onMounted (init sample_attrs (Some 0))).

(** The same component before any container exists. *)
Definition sample_unmounted : World := init sample_attrs None.


(** A component created with no attribute at all. *)
Definition no_attrs : Attrs :=
  {| attr_language := None; attr_modelValue := None; attr_readonly := None;
     attr_highlights := None |}.

(** ** Notions used in the further properties *)

(** What holds of the models of every store the component can produce:
    an editor that is not disposed shows a model, a model that is shown
    is in the store and not disposed, and no model is shown by two
    editors. *)
Definition models_ok (h : Monaco) : Prop :=
  forall e ed,
    editors h !! e = Some ed ->
    (editorDisposed ed = false -> is_Some (attached ed))
    /\ (forall m, attached ed = Some m ->
          modelDisposed <$> models h !! m = Some false)
    /\ (forall e' ed' m,
          editors h !! e' = Some ed' ->
          attached ed = Some m -> attached ed' = Some m -> e' = e).

(** What holds of the variables of the script: [editor.value] and
    [highlights] are set together, to an editor of the store and to a
    collection of that editor. *)
Definition vars_ok (w : World) : Prop :=
  (editor (setup w) = None <-> highlights (setup w) = None)
  /\ (forall e, editor (setup w) = Some e ->
        e < length (editors (monaco w))
        /\ exists c, highlights (setup w) = Some c
                     /\ owner <$> collections (monaco w) !! c = Some e).

(** The steps that are events of the editor. *)
Definition is_editor_event (st : Step) : bool :=
  match st with
  | do_edit _ _ | do_move_cursor _ _ => true
  | _ => false
  end.

(** The world in which the parent has passed the highlights [R]. *)
Definition with_highlights (R : list (list Z)) (w : World) : World :=
  snd (modify_setup (fun s =>
    set_props {| Props.language := Props.language (props s);
                 Props.modelValue := Props.modelValue (props s);
                 Props.readonly := Props.readonly (props s);
                 Props.highlights := Some R |} s) w).

(** ** Worker dispatch *)

Lemma strict_eq_true a b : strict_eq a b = true <-> a = b.
Proof. apply String.eqb_eq. Qed.

Lemma strict_eq_false a b : a <> b -> strict_eq a b = false.
Proof. apply String.eqb_neq. Qed.

Lemma workers_distinct :
  NoDup [jsonWorker; cssWorker; htmlWorker; tsWorker; yamlWorker;
         editorWorker].
Proof.
  repeat constructor; rewrite ?list_elem_of_In; simpl; intuition discriminate.
Qed.

(** The case of one label of the table: everything is decided by
    evaluation. *)
Ltac label_case l s :=
  destruct (String.eqb_spec l s) as [->|?];
  [ repeat split; try apply workers_distinct; intros;
    repeat match goal with
           | H : _ \/ _ |- _ => destruct H
           end;
    try (vm_compute in *; congruence);
    try (simpl; tauto);
    try (exfalso; simpl in *; tauto)
  | ].

(** C3: [getWorker] sends 'json' to the JSON worker, 'css', 'scss' and
    'less' to the style worker, 'html', 'handlebars' and 'razor' to the
    markup worker, 'typescript' and 'javascript' to the type-aware worker,
    'yaml' to the YAML worker and every other label to the default editor
    worker; the six workers are distinct, so the label classes partition
    the labels. *)
Theorem getWorker_dispatch (label : string) :
  (getWorker label = jsonWorker <-> label = "json")
  /\ (getWorker label = cssWorker <->
        label = "css" \/ label = "scss" \/ label = "less")
  /\ (getWorker label = htmlWorker <->
        label = "html" \/ label = "handlebars" \/ label = "razor")
  /\ (getWorker label = tsWorker <->
        label = "typescript" \/ label = "javascript")
  /\ (getWorker label = yamlWorker <-> label = "yaml")
  /\ (getWorker label = editorWorker <->
        ~ In label ["json"; "css"; "scss"; "less"; "html"; "handlebars";
                    "razor"; "typescript"; "javascript"; "yaml"])
  /\ NoDup [jsonWorker; cssWorker; htmlWorker; tsWorker; yamlWorker;
            editorWorker].
Proof.
  label_case label "json".
  label_case label "css".
  label_case label "scss".
  label_case label "less".
  label_case label "html".
  label_case label "handlebars".
  label_case label "razor".
  label_case label "typescript".
  label_case label "javascript".
  label_case label "yaml".
  assert (E : getWorker label = editorWorker).
  { unfold getWorker. rewrite !strict_eq_false by assumption. reflexivity. }
  rewrite E.
  repeat split; intros; try discriminate; try tauto;
    try (simpl; intuition congruence).
  apply workers_distinct.
Qed.

(** ** Decorations *)



(** The class is the same whatever the array holds. *)
Lemma transformMatch_class match_ :
  inlineClassName (options (transformMatch match_)) = "monaco-highlight-span".
Proof. reflexivity. Qed.

(** What the callback does once a collection exists: one call of [set]
    with the transformed list. *)
Lemma watch_highlights_set w c R :
  highlights (setup w) = Some c ->
  watch_highlights (Some R) w
  = perform (collection_set c (transformMatch <$> R))
            (lib_collection_set c (transformMatch <$> R)) w.
Proof.
  intros H. unfold watch_highlights, bind, ret, get_setup. simpl.
  rewrite H. reflexivity.
Qed.

Lemma Mounted_collection w e c m :
  Mounted w e c m ->
  exists co, collections (monaco w) !! c = Some co /\ owner co = e
             /\ fst (lib_getModel e (monaco w)) = Some m.
Proof.
  intros (_ & _ & Hs & _ & Ho).
  destruct (collections (monaco w) !! c) as [co|] eqn:E; [|discriminate].
  exists co. simpl in Ho. split; [reflexivity|]. split; [congruence|exact Hs].
Qed.

(** The one call the callback makes once a collection exists. *)
Lemma watch_highlights_calls w c R :
  highlights (setup w) = Some c ->
  fst (watch_highlights (Some R) w) = Normal tt
  /\ calls (snd (watch_highlights (Some R) w))
     = calls w ++
       [(collection_set c (transformMatch <$> R),
         monaco (snd (watch_highlights (Some R) w)))].
Proof.
  intros H. rewrite (watch_highlights_set _ _ _ H). unfold perform.
  destruct (lib_collection_set c (transformMatch <$> R) (monaco w)) as [[] h].
  split; reflexivity.
Qed.


(** ** The mount hook *)

Lemma alter_snoc {A} (f : A -> A) (l : list A) (x : A) :
  alter f (length l) (l ++ [x]) = l ++ [f x].
Proof.
  replace (length l) with (length l + 0) by lia.
  rewrite alter_app_r. reflexivity.
Qed.

Lemma lookup_snoc {A} (l : list A) (x : A) : (l ++ [x]) !! length l = Some x.
Proof. apply list_lookup_middle. reflexivity. Qed.

Lemma onMounted_skip w :
  containerRef (setup w) = None -> onMounted w = (Normal tt, w).
Proof.
  intros H. unfold onMounted, bind, get_setup, ret. simpl. rewrite H.
  reflexivity.
Qed.

Lemma onMounted_run w container :
  containerRef (setup w) = Some container ->
  let r := onMounted w in
  fst r = Normal tt
  /\ monaco (snd r) = mounted_monaco w container
  /\ setup (snd r)
     = set_highlights (Some (length (collections (monaco w))))
         (set_editor (Some (length (editors (monaco w)))) (setup w))
  /\ emitted (snd r) = emitted w
  /\ (calls (snd r)).*1
     = (calls w).*1 ++
       [editor_create container (create_options (props (setup w)));
        onDidChangeModelContent (length (editors (monaco w)))
          (contentListener (length (editors (monaco w))));
        onDidChangeCursorPosition (length (editors (monaco w))) cursorListener;
        createDecorationsCollection (length (editors (monaco w)))
          (initial_decorations (props (setup w)))].
Proof.
  intros H r. subst r.
  unfold onMounted, bind, get_setup, ret, perform, modify_setup. simpl.
  rewrite H. simpl.
  unfold update_editor. simpl. rewrite !alter_snoc. simpl.
  rewrite lookup_snoc. simpl. rewrite lookup_snoc. simpl.
  rewrite ?alter_snoc.
  split; [reflexivity|]. split; [reflexivity|]. split; [reflexivity|].
  split; [reflexivity|].
  rewrite !fmap_app. simpl. rewrite <- !app_assoc. reflexivity.
Qed.

Lemma onMounted_Mounted w container :
  containerRef (setup w) = Some container ->
  Mounted (snd (onMounted w)) (length (editors (monaco w)))
    (length (collections (monaco w))) (length (models (monaco w))).
Proof.
  intros H.
  destruct (onMounted_run w container H) as (_ & Hm & Hs & _).
  unfold Mounted, shown. rewrite Hm, Hs. unfold mounted_monaco. simpl.
  rewrite !lookup_snoc. simpl. repeat split; reflexivity.
Qed.

Lemma onMounted_collection w container :
  containerRef (setup w) = Some container ->
  let r := onMounted w in
  exists c,
    highlights (setup (snd r)) = Some c
    /\ decorations <$> collections (monaco (snd r)) !! c
       = Some (initial_decorations (props (setup w))).
Proof.
  intros H r. subst r.
  destruct (onMounted_run w container H) as (_ & Hm & Hs & _).
  exists (length (collections (monaco w))).
  rewrite Hm, Hs. unfold mounted_monaco. simpl.
  rewrite lookup_snoc. split; reflexivity.
Qed.

(** C10: while no decoration collection exists (before a successful
    mount), the highlights callback on any list of ranges returns
    normally and leaves everything as it was: no collection is made or
    changed and the library is not called. *)
Theorem sync_before_mount_noop (w : World) (R : list (list Z)) :
  highlights (setup w) = None ->
  watch_highlights (Some R) w = (Normal tt, w).
Proof.
  intros H. unfold watch_highlights, bind, ret, get_setup. simpl.
  rewrite H. reflexivity.
Qed.

(** C9: when the highlights change to [undefined] the callback throws
    (a [TypeError] from [undefined.map]), in every state and before it
    has touched anything; the mount hook accepts absent highlights and
    starts the collection with no decoration. *)
Theorem sync_absent_throws (w : World) :
  watch_highlights None w = (Throw TypeError, w)
  /\ (forall container,
        containerRef (setup w) = Some container ->
        Props.highlights (props (setup w)) = None ->
        let r := onMounted w in
        fst r = Normal tt
        /\ exists c,
             highlights (setup (snd r)) = Some c
             /\ decorations <$> collections (monaco (snd r)) !! c = Some []).
Proof.
  split; [reflexivity|].
  intros container Hc Hh r. subst r.
  split; [apply (onMounted_run w container Hc)|].
  destruct (onMounted_collection w container Hc) as (c & H1 & H2).
  exists c. split; [exact H1|].
  rewrite H2. unfold initial_decorations. rewrite Hh. reflexivity.
Qed.

(** C4: with no container the mount hook does nothing: it returns
    normally and the world is the one before, so no editor exists, no
    listener is registered and the library was not called.  Mounting can
    be tried again: once the container is there, the hook makes a new
    live editor on it. *)
Theorem mount_without_container (w : World) :
  containerRef (setup w) = None ->
  onMounted w = (Normal tt, w)
  /\ forall container,
       let w' := snd (step (do_container (Some container)) (snd (onMounted w))) in
       let r := onMounted w' in
       fst r = Normal tt
       /\ editor (setup (snd r)) = Some (length (editors (monaco w)))
       /\ live (monaco (snd r)) (length (editors (monaco w)))
       /\ domElement <$> editors (monaco (snd r)) !! length (editors (monaco w))
          = Some container.
Proof.
  intros H. split; [apply onMounted_skip, H|].
  intros container w' r.
  assert (Hw : w' = snd (modify_setup (set_containerRef (Some container)) w)).
  { subst w'. rewrite (onMounted_skip w H). reflexivity. }
  clearbody w'. subst r.
  assert (Hc : containerRef (setup w') = Some container)
    by (rewrite Hw; reflexivity).
  assert (Hh : monaco w' = monaco w) by (rewrite Hw; reflexivity).
  destruct (onMounted_run w' container Hc) as (Hr & Hm & Hs & _).
  split; [exact Hr|]. unfold live. rewrite Hm, Hs. unfold mounted_monaco.
  simpl. rewrite Hh, lookup_snoc. repeat split; reflexivity.
Qed.

(** C8: a [language] left out is 'javascript' and a [readonly] left out
    is [false]; with [highlights] left out, mounting makes the collection
    with no decoration, the same store as with an empty list of
    highlights. *)
Theorem props_defaults (a : Attrs) :
  (attr_language a = None -> Props.language (defineProps a) = "javascript")
  /\ (attr_readonly a = None -> Props.readonly (defineProps a) = false)
  /\ (attr_highlights a = None ->
      forall container,
        let r := onMounted (init a (Some container)) in
        fst r = Normal tt
        /\ (exists c,
              highlights (setup (snd r)) = Some c
              /\ decorations <$> collections (monaco (snd r)) !! c = Some [])
        /\ monaco (snd r)
           = monaco (snd (onMounted
               (init {| attr_language := attr_language a;
                        attr_modelValue := attr_modelValue a;
                        attr_readonly := attr_readonly a;
                        attr_highlights := Some [] |} (Some container))))).
Proof.
  split; [intros H; unfold defineProps; rewrite H; reflexivity|].
  split; [intros H; unfold defineProps; rewrite H; reflexivity|].
  intros H container r. subst r.
  split; [reflexivity|]. split.
  - exists 0. unfold onMounted, bind, get_setup, perform, modify_setup. simpl.
    rewrite H. split; reflexivity.
  - unfold onMounted, bind, get_setup, perform, modify_setup. simpl.
    rewrite H. reflexivity.
Qed.

(** ** The language callback *)

Lemma Mounted_objects w e c m :
  Mounted w e c m ->
  exists ed mo,
    editors (monaco w) !! e = Some ed /\ attached ed = Some m
    /\ models (monaco w) !! m = Some mo /\ modelDisposed mo = false
    /\ m < length (models (monaco w)).
Proof.
  intros (_ & _ & Hs & Hd & _). unfold shown in Hs.
  destruct (editors (monaco w) !! e) as [ed|] eqn:Ee; [|discriminate].
  destruct (models (monaco w) !! m) as [mo|] eqn:Em; [|discriminate].
  simpl in Hs, Hd. exists ed, mo.
  repeat split; try congruence. eapply lookup_lt_Some, Em.
Qed.

(** The callback on a mounted component, call by call. *)
Lemma watch_language_run w e c m lang :
  Mounted w e c m ->
  let v := or_string (Props.modelValue (props (setup w))) "" in
  let n := length (models (monaco w)) in
  let h1 := monaco w in
  let h2 := snd (lib_createModel v lang h1) in
  let h3 := snd (lib_setModel e n h2) in
  let h4 := snd (lib_model_dispose m h3) in
  watch_language lang w
  = (Normal tt,
     {| monaco := h4; setup := setup w; emitted := emitted w;
        calls := calls w ++
          [(getModel e, h1); (createModel v lang, h2); (setModel e n, h3);
           (model_dispose m, h4)] |}).
Proof.
  intros HM. pose proof HM as (He & _ & Hs & _).
  unfold watch_language, bind, get_setup, perform, ret. simpl.
  rewrite He. simpl. unfold shown in Hs. rewrite Hs. simpl.
  rewrite <- !app_assoc. reflexivity.
Qed.

(** The stores the callback goes through: the editor shows the old
    model until [setModel], and the new one from then on; the old model
    is disposed by the last call only. *)
Lemma watch_language_stores w e c m lang :
  Mounted w e c m ->
  let v := or_string (Props.modelValue (props (setup w))) "" in
  let n := length (models (monaco w)) in
  let h2 := snd (lib_createModel v lang (monaco w)) in
  let h3 := snd (lib_setModel e n h2) in
  let h4 := snd (lib_model_dispose m h3) in
  n <> m
  /\ shown h2 e = Some m /\ shown h3 e = Some n /\ shown h4 e = Some n
  /\ modelDisposed <$> models h2 !! m = Some false
  /\ modelDisposed <$> models h3 !! m = Some false
  /\ modelDisposed <$> models h4 !! m = Some true
  /\ models h2 !! n
     = Some {| text := v; languageId := lang; modelDisposed := false |}
  /\ models h3 !! n
     = Some {| text := v; languageId := lang; modelDisposed := false |}
  /\ models h4 !! n
     = Some {| text := v; languageId := lang; modelDisposed := false |}.
Proof.
  intros HM v n h2 h3 h4.
  destruct (Mounted_objects _ _ _ _ HM) as (ed & mo & Hed & Hat & Hmo & Hd & Hlt).
  assert (Hn : n <> m) by (subst n; lia).
  subst h4 h3 h2 n. unfold shown. simpl.
  rewrite list_lookup_fmap, !list_lookup_alter_eq, Hed. simpl.
  rewrite (lookup_app_l_Some _ _ _ _ Hmo). simpl.
  rewrite lookup_snoc.
  rewrite list_lookup_alter_ne by lia. rewrite lookup_snoc.
  unfold detach. simpl. rewrite bool_decide_eq_false_2 by congruence.
  rewrite Hd. repeat split; try assumption; reflexivity.
Qed.

Lemma watch_language_calls w e c m lang :
  Mounted w e c m ->
  (calls (snd (watch_language lang w))).*1
  = (calls w).*1 ++
    [getModel e;
     createModel (or_string (Props.modelValue (props (setup w))) "") lang;
     setModel e (length (models (monaco w)));
     model_dispose m].
Proof.
  intros HM. rewrite (watch_language_run _ _ _ _ lang HM). simpl.
  rewrite fmap_app. reflexivity.
Qed.



(** C6: on a mounted component the language callback calls, in this
    order, [getModel], [createModel], [setModel] with the new model and
    [dispose] on the old one.  After each of the calls the editor shows
    exactly one model: the old one up to [setModel], the new one after
    it.  The old model is not disposed as long as the editor shows it;
    when the callback disposes it, the editor shows the new model, which
    is not disposed. *)
Theorem language_switch_attach_then_dispose (w : World) (e c m : nat)
    (lang : string) :
  Mounted w e c m ->
  let r := watch_language lang w in
  let v := or_string (Props.modelValue (props (setup w))) "" in
  let n := length (models (monaco w)) in
  fst r = Normal tt
  /\ n <> m
  /\ exists h1 h2 h3 h4,
       calls (snd r)
       = calls w ++
         [(getModel e, h1); (createModel v lang, h2); (setModel e n, h3);
          (model_dispose m, h4)]
       /\ monaco (snd r) = h4
       /\ (shown h1 e = Some m /\ modelDisposed <$> models h1 !! m = Some false)
       /\ (shown h2 e = Some m /\ modelDisposed <$> models h2 !! m = Some false)
       /\ (shown h3 e = Some n /\ modelDisposed <$> models h3 !! n = Some false)
       /\ (shown h4 e = Some n /\ modelDisposed <$> models h4 !! m = Some true
           /\ modelDisposed <$> models h4 !! n = Some false).
Proof.
  intros HM r v n. subst r.
  rewrite (watch_language_run _ _ _ _ lang HM).
  destruct (watch_language_stores _ _ _ _ lang HM)
    as (Hn & S2 & S3 & S4 & D2 & D3 & D4 & N2 & N3 & N4).
  pose proof HM as (_ & _ & S1 & D1 & _).
  apply (f_equal (fmap modelDisposed)) in N3, N4.
  split; [reflexivity|]. split; [exact Hn|].
  do 4 eexists. split; [reflexivity|]. split; [reflexivity|].
  repeat split; assumption.
Qed.

(** ** The unmount hook *)

Lemma disposed_editor_twice ed :
  disposed_editor (disposed_editor ed) = disposed_editor ed.
Proof. reflexivity. Qed.

Lemma lib_editor_dispose_twice e h :
  snd (lib_editor_dispose e (snd (lib_editor_dispose e h)))
  = snd (lib_editor_dispose e h).
Proof.
  unfold lib_editor_dispose, update_editor. simpl. f_equal.
  rewrite list_alter_alter_eq. apply list_alter_ext; [|reflexivity].
  intros ed _. reflexivity.
Qed.

Lemma onBeforeUnmount_skip w :
  editor (setup w) = None -> onBeforeUnmount w = (Normal tt, w).
Proof.
  intros H. unfold onBeforeUnmount, bind, get_setup, ret. simpl. rewrite H.
  reflexivity.
Qed.

Lemma onBeforeUnmount_run w e :
  editor (setup w) = Some e ->
  onBeforeUnmount w
  = (Normal tt,
     {| monaco := snd (lib_editor_dispose e (monaco w)); setup := setup w;
        emitted := emitted w;
        calls := calls w ++
          [(editor_dispose e, snd (lib_editor_dispose e (monaco w)))] |}).
Proof.
  intros H. unfold onBeforeUnmount, bind, get_setup, perform. simpl.
  rewrite H. reflexivity.
Qed.

(** C5: the unmount hook returns normally in every state.  It does
    nothing at all when no editor was ever made; run a second time it
    leaves the store, the variables of the script and the emitted events
    as the first run left them.  After mount and then unmount, the editor
    the mount made is disposed, and an editor that is live afterwards was
    live before the mount. *)
Theorem unmount_safe_idempotent (w : World) :
  fst (onBeforeUnmount w) = Normal tt
  /\ (editor (setup w) = None -> onBeforeUnmount w = (Normal tt, w))
  /\ (let w1 := snd (onBeforeUnmount w) in
      let r := onBeforeUnmount w1 in
      fst r = Normal tt /\ monaco (snd r) = monaco w1
      /\ setup (snd r) = setup w1 /\ emitted (snd r) = emitted w1)
  /\ (forall container,
        containerRef (setup w) = Some container ->
        let r1 := onMounted w in
        let r2 := onBeforeUnmount (snd r1) in
        fst r1 = Normal tt /\ fst r2 = Normal tt
        /\ editor (setup (snd r2)) = Some (length (editors (monaco w)))
        /\ editorDisposed <$> editors (monaco (snd r2)) !! length (editors (monaco w))
           = Some true
        /\ forall e, live (monaco (snd r2)) e -> live (monaco w) e).
Proof.
  split.
  { destruct (editor (setup w)) as [e|] eqn:E.
    - rewrite (onBeforeUnmount_run w e E). reflexivity.
    - rewrite (onBeforeUnmount_skip w E). reflexivity. }
  split; [apply onBeforeUnmount_skip|].
  split.
  - destruct (editor (setup w)) as [e|] eqn:E.
    + rewrite (onBeforeUnmount_run w e E). simpl.
      rewrite (onBeforeUnmount_run _ e) by exact E. simpl.
      split; [reflexivity|]. split; [|split; reflexivity].
      apply (lib_editor_dispose_twice e (monaco w)).
    + rewrite (onBeforeUnmount_skip w E). simpl.
      rewrite (onBeforeUnmount_skip w E). repeat split; reflexivity.
  - intros container Hc r1 r2. subst r2 r1.
    destruct (onMounted_run w container Hc) as (Hr & Hm & Hs & _).
    assert (He : editor (setup (snd (onMounted w)))
                 = Some (length (editors (monaco w))))
      by (rewrite Hs; reflexivity).
    rewrite (onBeforeUnmount_run _ _ He). simpl. rewrite Hm.
    split; [exact Hr|]. split; [reflexivity|]. split; [exact He|].
    unfold mounted_monaco, update_editor, live. simpl. rewrite alter_snoc.
    split; [rewrite lookup_snoc; reflexivity|].
    intros e Hl.
    destruct (decide (e < length (editors (monaco w)))) as [Hlt|Hge].
    + rewrite lookup_app_l in Hl by exact Hlt. exact Hl.
    + destruct (decide (e = length (editors (monaco w)))) as [->|Hne].
      * rewrite lookup_snoc in Hl. discriminate Hl.
      * rewrite lookup_ge_None_2 in Hl; [discriminate Hl|].
        rewrite length_app. simpl. lia.
Qed.

(** ** Events *)

Lemma editors_ok_same h h' :
  editors h' = editors h -> length (models h) <= length (models h') ->
  editors_ok h -> editors_ok h'.
Proof.
  intros He Hm H e ed Hl. rewrite He in Hl.
  destruct (H e ed Hl) as [H1 H2]. split; [exact H1|].
  intros m Ha. specialize (H2 m Ha). lia.
Qed.

Lemma editors_ok_alter h e f :
  editors_ok h ->
  (forall ed,
     editors h !! e = Some ed ->
     (editorDisposed (f ed) = false ->
        editorDisposed ed = false
        /\ contentListeners (f ed) = contentListeners ed
        /\ cursorListeners (f ed) = cursorListeners ed)
     /\ (forall m, attached (f ed) = Some m ->
           attached ed = Some m \/ m < length (models h))) ->
  editors_ok (update_editor e f h).
Proof.
  intros H Hf e' ed' Hl. unfold update_editor in *. simpl in *.
  destruct (decide (e = e')) as [->|Hne].
  - rewrite list_lookup_alter_eq in Hl.
    destruct (editors h !! e') as [ed|] eqn:E; [|discriminate].
    simpl in Hl. injection Hl as <-.
    destruct (H e' ed E) as [H1 H2]. destruct (Hf ed eq_refl) as [F1 F2].
    split.
    + intros Hd. destruct (F1 Hd) as (Hd' & -> & ->). exact (H1 Hd').
    + intros m Ha. destruct (F2 m Ha) as [Ha'|Hlt]; [exact (H2 m Ha')|exact Hlt].
  - rewrite list_lookup_alter_ne in Hl by exact Hne. exact (H e' ed' Hl).
Qed.

Lemma editors_ok_model_dispose h m :
  editors_ok h -> editors_ok (snd (lib_model_dispose m h)).
Proof.
  intros H e ed Hl. simpl in *. rewrite list_lookup_fmap in Hl.
  destruct (editors h !! e) as [ed0|] eqn:E; [|discriminate].
  simpl in Hl. injection Hl as <-. destruct (H e ed0 E) as [H1 H2].
  rewrite length_alter. unfold detach.
  destruct (bool_decide (attached ed0 = Some m)); simpl.
  - split; [exact H1|]. intros ? ?. discriminate.
  - split; [exact H1|exact H2].
Qed.

Lemma editors_ok_mounted w container :
  editors_ok (monaco w) -> editors_ok (mounted_monaco w container).
Proof.
  intros H e ed Hl. unfold mounted_monaco in *. simpl in *.
  rewrite length_app. simpl.
  apply lookup_app_Some in Hl as [Hl|[Hge Hl]].
  - destruct (H e ed Hl) as [H1 H2]. split; [exact H1|].
    intros m Ha. specialize (H2 m Ha). lia.
  - destruct (e - length (editors (monaco w))) as [|k] eqn:Ek;
      [|destruct k; discriminate Hl].
    simpl in Hl. injection Hl as <-. simpl.
    assert (e = length (editors (monaco w))) as -> by lia.
    split; [intros _; split; reflexivity|].
    intros m Hm. injection Hm as <-. lia.
Qed.

Lemma bind_normal {A B} (m : Js A) (k : A -> Js B) w a :
  fst (m w) = Normal a -> bind m k w = k a (snd (m w)).
Proof. unfold bind. destruct (m w) as [[a'|err] w']; simpl; congruence. Qed.

(** Calling the listeners leaves the store alone and emits one event per
    listener. *)
Lemma fire_content ls w :
  let r := fire run_contentListener ls w in
  fst r = Normal tt /\ monaco (snd r) = monaco w /\ setup (snd r) = setup w
  /\ emitted (snd r)
     = emitted w ++
       ((fun l => match l with
                  | contentListener ei =>
                      update_modelValue (fst (lib_getValue ei (monaco w)))
                  end) <$> ls).
Proof.
  revert w. induction ls as [|[ei] ls IH]; intros w.
  - simpl. rewrite app_nil_r. repeat split; reflexivity.
  - cbn [fire].
    rewrite (bind_normal _ _ w tt) by reflexivity.
    destruct (IH (snd (run_contentListener (contentListener ei) w)))
      as (I1 & I2 & I3 & I4).
    cbv zeta. rewrite I1, I2, I3, I4.
    change (emitted (snd (run_contentListener (contentListener ei) w)))
      with (emitted w ++ [update_modelValue (fst (lib_getValue ei (monaco w)))]).
    rewrite fmap_cons, <- app_assoc.
    repeat split; reflexivity.
Qed.

Lemma fire_cursor ev ls w :
  let r := fire (run_cursorListener ev) ls w in
  fst r = Normal tt /\ monaco (snd r) = monaco w /\ setup (snd r) = setup w
  /\ emitted (snd r) = emitted w ++ ((fun _ => changeCursor ev) <$> ls).
Proof.
  revert w. induction ls as [|[] ls IH]; intros w.
  - simpl. rewrite app_nil_r. repeat split; reflexivity.
  - cbn [fire].
    rewrite (bind_normal _ _ w tt) by reflexivity.
    destruct (IH (snd (run_cursorListener ev cursorListener w)))
      as (I1 & I2 & I3 & I4).
    cbv zeta. rewrite I1, I2, I3, I4.
    change (emitted (snd (run_cursorListener ev cursorListener w)))
      with (emitted w ++ [changeCursor ev]).
    rewrite fmap_cons, <- app_assoc.
    repeat split; reflexivity.
Qed.

(** The store each operation leaves behind. *)
Lemma watch_highlights_frame v w :
  editors (monaco (snd (watch_highlights v w))) = editors (monaco w)
  /\ models (monaco (snd (watch_highlights v w))) = models (monaco w).
Proof.
  destruct v as [l|]; [|split; reflexivity].
  unfold watch_highlights, bind, ret, get_setup, perform. simpl.
  destruct (highlights (setup w)) as [c|]; [|split; reflexivity].
  simpl.
  destruct (collections (monaco w) !! c ≫= _); split; reflexivity.
Qed.

Lemma watch_language_monaco lang w :
  let v := or_string (Props.modelValue (props (setup w))) "" in
  let n := length (models (monaco w)) in
  let h2 := snd (lib_createModel v lang (monaco w)) in
  monaco (snd (watch_language lang w))
  = match editor (setup w) with
    | None => h2
    | Some e =>
        let h3 := snd (lib_setModel e n h2) in
        match shown (monaco w) e with
        | Some m => snd (lib_model_dispose m h3)
        | None => h3
        end
    end.
Proof.
  unfold watch_language, bind, ret, get_setup, perform, shown. simpl.
  destruct (editor (setup w)) as [e|]; [|reflexivity]. simpl.
  destruct (editors (monaco w) !! e ≫= _); reflexivity.
Qed.

Lemma edit_run e t w :
  let r := edit e t w in
  fst r = Normal tt
  /\ editors (monaco (snd r)) = editors (monaco w)
  /\ length (models (monaco (snd r))) = length (models (monaco w))
  /\ forall ed m,
       editors (monaco w) !! e = Some ed -> attached ed = Some m ->
       models (monaco (snd r)) = alter (set_text t) m (models (monaco w))
       /\ emitted (snd r)
          = emitted w ++
            ((fun l => match l with
                       | contentListener ei =>
                           update_modelValue
                             (fst (lib_getValue ei
                                {| models := alter (set_text t) m (models (monaco w));
                                   editors := editors (monaco w);
                                   collections := collections (monaco w) |}))
                       end) <$> contentListeners ed).
Proof.
  unfold edit. rewrite (bind_normal _ _ w (monaco w)) by reflexivity.
  change (snd (get_monaco w)) with w.
  destruct (editors (monaco w) !! e) as [ed|] eqn:E;
    [|repeat split; try reflexivity; intros; discriminate].
  destruct (attached ed) as [m|] eqn:A;
    [|repeat split; try reflexivity; intros; congruence].
  cbv zeta. rewrite (bind_normal _ _ w tt) by reflexivity.
  match goal with |- context [fire _ _ ?w'] =>
    destruct (fire_content (contentListeners ed) w') as (I1 & I2 & I3 & I4)
  end.
  rewrite I1, I2, I4. simpl. rewrite length_alter.
  repeat split; try reflexivity;
    injection H as <-; assert (m0 = m) as -> by congruence; reflexivity.
Qed.

Lemma move_cursor_run e ev w :
  let r := move_cursor e ev w in
  fst r = Normal tt
  /\ monaco (snd r) = monaco w
  /\ forall ed,
       editors (monaco w) !! e = Some ed ->
       emitted (snd r)
       = emitted w ++ ((fun _ => changeCursor ev) <$> cursorListeners ed).
Proof.
  unfold move_cursor. rewrite (bind_normal _ _ w (monaco w)) by reflexivity.
  change (snd (get_monaco w)) with w.
  destruct (editors (monaco w) !! e) as [ed|] eqn:E;
    [|repeat split; try reflexivity; intros; discriminate].
  destruct (fire_cursor ev (cursorListeners ed) w) as (I1 & I2 & I3 & I4).
  cbv zeta. rewrite I1, I2, I4.
  repeat split; try reflexivity. intros ed' [= <-]. reflexivity.
Qed.

Lemma watch_highlights_editors_ok v w :
  editors_ok (monaco w) -> editors_ok (monaco (snd (watch_highlights v w))).
Proof.
  intros H. destruct (watch_highlights_frame v w) as [F1 F2].
  eapply editors_ok_same; [exact F1| |exact H]. rewrite F2. reflexivity.
Qed.

Lemma watch_language_editors_ok lang w :
  editors_ok (monaco w) -> editors_ok (monaco (snd (watch_language lang w))).
Proof.
  intros H. rewrite watch_language_monaco. cbv zeta.
  set (h2 := snd (lib_createModel _ lang (monaco w))).
  assert (H2 : editors_ok h2).
  { eapply editors_ok_same; [| |exact H]; [reflexivity|].
    subst h2. simpl. rewrite length_app. lia. }
  destruct (editor (setup w)) as [e|]; [|exact H2].
  assert (H3 : editors_ok (snd (lib_setModel e (length (models (monaco w))) h2))).
  { apply editors_ok_alter; [exact H2|].
    intros ed _. split; [intros Hd; repeat split; exact Hd|].
    intros m [= <-]. right. subst h2. simpl. rewrite length_app. simpl. lia. }
  destruct (shown (monaco w) e); [|exact H3].
  apply editors_ok_model_dispose, H3.
Qed.

Lemma step_editors_ok st w :
  editors_ok (monaco w) -> editors_ok (monaco (snd (step st w))).
Proof.
  intros H. destruct st as [| |v|lang|v|c|e t|e ev]; simpl.
  - destruct (containerRef (setup w)) as [container|] eqn:E.
    + destruct (onMounted_run w container E) as (_ & -> & _).
      apply editors_ok_mounted, H.
    + rewrite (onMounted_skip w E). exact H.
  - destruct (editor (setup w)) as [e|] eqn:E.
    + rewrite (onBeforeUnmount_run w e E). simpl.
      apply editors_ok_alter; [exact H|].
      intros ed _. split; [discriminate|]. intros m Hm. discriminate Hm.
    + rewrite (onBeforeUnmount_skip w E). exact H.
  - unfold set_prop_highlights.
    rewrite (bind_normal _ _ w (setup w)) by reflexivity.
    rewrite (bind_normal _ _ _ tt) by reflexivity.
    destruct (Props.highlights (props (setup w))), v;
      first [exact H | apply watch_highlights_editors_ok; exact H].
  - unfold set_prop_language.
    rewrite (bind_normal _ _ w (setup w)) by reflexivity.
    rewrite (bind_normal _ _ _ tt) by reflexivity.
    destruct (strict_eq lang _); [exact H|].
    apply watch_language_editors_ok. exact H.
  - exact H.
  - exact H.
  - destruct (edit_run e t w) as (_ & F1 & F2 & _).
    eapply editors_ok_same; [exact F1| |exact H]. rewrite F2. reflexivity.
  - destruct (move_cursor_run e ev w) as (_ & -> & _). exact H.
Qed.

Lemma reachable_editors_ok w : reachable w -> editors_ok (monaco w).
Proof.
  induction 1 as [a container|w st _ IH].
  - intros e ed Hl. simpl in Hl. rewrite lookup_nil in Hl. discriminate Hl.
  - apply step_editors_ok, IH.
Qed.

(** C7: in every world the component can reach, one edit operation in a
    live editor makes the component emit exactly one [update:modelValue],
    which carries the whole text of the document after the edit, and one
    cursor move makes it emit exactly one [changeCursor] with the event of
    the move; nothing is held back or merged. *)
Theorem listeners_forward_each_event (w : World) (e : nat) :
  reachable w ->
  live (monaco w) e ->
  (forall m t,
     shown (monaco w) e = Some m ->
     let r := edit e t w in
     fst r = Normal tt
     /\ text <$> models (monaco (snd r)) !! m = Some t
     /\ emitted (snd r) = emitted w ++ [update_modelValue t])
  /\ (forall ev,
        let r := move_cursor e ev w in
        fst r = Normal tt
        /\ emitted (snd r) = emitted w ++ [changeCursor ev]).
Proof.
  intros Hr Hl. pose proof (reachable_editors_ok w Hr) as Hok.
  unfold live in Hl.
  destruct (editors (monaco w) !! e) as [ed|] eqn:E; [|discriminate].
  simpl in Hl. injection Hl as Hd.
  destruct (Hok e ed E) as [HL Hm]. destruct (HL Hd) as [Lc Lk].
  split.
  - intros m t Hs r. subst r. unfold shown in Hs. rewrite E in Hs.
    simpl in Hs. specialize (Hm m Hs).
    destruct (edit_run e t w) as (R1 & R2 & _ & R4).
    destruct (R4 ed m E Hs) as [M1 M2].
    destruct (lookup_lt_is_Some_2 _ _ Hm) as [mo Hmo].
    assert (Ht : text <$> alter (set_text t) m (models (monaco w)) !! m = Some t)
      by (rewrite list_lookup_alter_eq, Hmo; reflexivity).
    split; [exact R1|]. rewrite M1, M2, Lc. split; [exact Ht|].
    simpl. rewrite E. simpl. rewrite Hs. simpl. 
    destruct (alter (set_text t) m (models (monaco w)) !! m); [|discriminate].
    simpl in *. congruence.
  - intros ev r. subst r.
    destruct (move_cursor_run e ev w) as (R1 & _ & R3).
    split; [exact R1|]. rewrite (R3 ed E), Lk. reflexivity.
Qed.

(** ** The scenarios of the specification, and the theorems at work *)

Example sample_world_Mounted : Mounted sample_world 0 0 0.
Proof. unfold Mounted. repeat split; reflexivity. Qed.

(** [highlights = [[0,0,0,5]]]: one decoration from line 1, column 1 to
    line 1, column 6. *)
Example scenario_one_highlight :
  decorations <$> collections (monaco sample_world) !! 0
  = Some [highlight_span 1 1 1 6].
Proof. reflexivity. Qed.

(** 'javascript' to 'python' with the text "print(1)". *)
Example scenario_language_switch :
  let w := snd (set_prop_language "python" sample_world) in
  shown (monaco w) 0 = Some 1
  /\ models (monaco w) !! 1
     = Some {| text := "print(1)"; languageId := "python"; modelDisposed := false |}
  /\ dispose_count 0 (calls w) = 1.
Proof. repeat split; reflexivity. Qed.

(** A match whose start lies after its end comes out with the two ends
    exchanged, and a match with fewer than four numbers gives a range of
    [NaN]: such arrays are not valid match ranges. *)
Example transformMatch_reversed :
  range (transformMatch [3; 1; 2; 9]%Z) = mkRange (Int 3) (Int 10) (Int 4) (Int 2).
Proof. reflexivity. Qed.

Example transformMatch_short :
  range (transformMatch [1]%Z) = mkRange (Int 2) NaN NaN NaN.
Proof. reflexivity. Qed.



Lemma language_switch_attach_then_dispose_witness :
  Mounted sample_world 0 0 0
  /\ fst (watch_language "python" sample_world) = Normal tt.
Proof.
  assert (HM : Mounted sample_world 0 0 0)
    by (unfold Mounted; repeat split; reflexivity).
  split; [exact HM|].
  exact (proj1 (language_switch_attach_then_dispose _ _ _ _ "python" HM)).
Defined.

Lemma mount_without_container_witness :
  containerRef (setup sample_unmounted) = None
  /\ onMounted sample_unmounted = (Normal tt, sample_unmounted).
Proof.
  assert (H : containerRef (setup sample_unmounted) = None) by reflexivity.
  split; [exact H|]. exact (proj1 (mount_without_container _ H)).
Defined.

Lemma unmount_safe_idempotent_witness :
  editor (setup sample_unmounted) = None
  /\ onBeforeUnmount sample_unmounted = (Normal tt, sample_unmounted)
  /\ containerRef (setup (init sample_attrs (Some 0))) = Some 0
  /\ editorDisposed <$>
       editors (monaco (snd (onBeforeUnmount
         (snd (onMounted (init sample_attrs (Some 0))))))) !! 0
     = Some true.
Proof.
  assert (H : editor (setup sample_unmounted) = None) by reflexivity.
  assert (Hc : containerRef (setup (init sample_attrs (Some 0))) = Some 0)
    by reflexivity.
  split; [exact H|].
  split; [exact (proj1 (proj2 (unmount_safe_idempotent sample_unmounted)) H)|].
  split; [exact Hc|].
  exact (proj1 (proj2 (proj2 (proj2
    (proj2 (proj2 (proj2 (unmount_safe_idempotent (init sample_attrs (Some 0)))))
       0 Hc))))).
Defined.

Lemma listeners_forward_each_event_witness :
  reachable sample_world
  /\ live (monaco sample_world) 0
  /\ shown (monaco sample_world) 0 = Some 0
  /\ emitted (snd (edit 0 "print(12)" sample_world))
     = [update_modelValue "print(12)"].
Proof.
  assert (Hr : reachable sample_world)
    by exact (reachable_step _ do_mount (reachable_init sample_attrs (Some 0))).
  assert (Hl : live (monaco sample_world) 0) by reflexivity.
  assert (Hs : shown (monaco sample_world) 0 = Some 0) by reflexivity.
  split; [exact Hr|]. split; [exact Hl|]. split; [exact Hs|].
  exact (proj2 (proj2 (proj1 (listeners_forward_each_event _ _ Hr Hl)
                         0 "print(12)" Hs))).
Defined.

Lemma props_defaults_witness :
  attr_language no_attrs = None
  /\ Props.language (defineProps no_attrs) = "javascript"
  /\ attr_readonly no_attrs = None
  /\ Props.readonly (defineProps no_attrs) = false
  /\ attr_highlights no_attrs = None
  /\ fst (onMounted (init no_attrs (Some 0))) = Normal tt.
Proof.
  assert (H : @None string = None) by reflexivity.
  assert (Hb : @None bool = None) by reflexivity.
  assert (Hh : @None (list (list Z)) = None) by reflexivity.
  split; [exact H|].
  split; [exact (proj1 (props_defaults no_attrs) H)|].
  split; [exact Hb|].
  split; [exact (proj1 (proj2 (props_defaults no_attrs)) Hb)|].
  split; [exact Hh|].
  exact (proj1 (proj2 (proj2 (props_defaults no_attrs)) Hh 0)).
Defined.

Lemma sync_absent_throws_witness :
  containerRef (setup (init no_attrs (Some 0))) = Some 0
  /\ Props.highlights (props (setup (init no_attrs (Some 0)))) = None
  /\ fst (onMounted (init no_attrs (Some 0))) = Normal tt.
Proof.
  assert (Hc : containerRef (setup (init no_attrs (Some 0))) = Some 0)
    by reflexivity.
  assert (Hh : Props.highlights (props (setup (init no_attrs (Some 0)))) = None)
    by reflexivity.
  split; [exact Hc|]. split; [exact Hh|].
  exact (proj1 (proj2 (sync_absent_throws (init no_attrs (Some 0))) 0 Hc Hh)).
Defined.

Lemma sync_before_mount_noop_witness :
  highlights (setup sample_unmounted) = None
  /\ watch_highlights (Some [[0; 0; 0; 5]%Z]) sample_unmounted
     = (Normal tt, sample_unmounted).
Proof.
  assert (H : highlights (setup sample_unmounted) = None) by reflexivity.
  split; [exact H|].
  exact (sync_before_mount_noop sample_unmounted [[0; 0; 0; 5]%Z] H).
Defined.

(** ** Further properties: decorations *)

(** X1: [transformMatch] reads the first four numbers of the array only:
    whatever follows them changes nothing. *)
Theorem transformMatch_first_four (match_ : list Z) :
  transformMatch match_ = transformMatch (take 4 match_).
Proof.
  destruct match_ as [|a [|b [|c [|d rest]]]]; reflexivity.
Qed.

Lemma lib_collection_set_twice c d1 d2 h :
  snd (lib_collection_set c d2 (snd (lib_collection_set c d1 h)))
  = snd (lib_collection_set c d2 h).
Proof.
  unfold lib_collection_set, lib_getModel. simpl.
  destruct (collections h !! c) as [co|] eqn:E; simpl; [|rewrite E; reflexivity].
  destruct (editors h !! owner co ≫= _) as [m|] eqn:G; simpl.
  - rewrite list_lookup_alter_eq, E. simpl. rewrite G. f_equal.
    rewrite list_alter_alter_eq. apply list_alter_ext; [|reflexivity].
    intros co' _. reflexivity.
  - rewrite E. simpl. rewrite G. reflexivity.
Qed.

(** The callback as a whole, whatever the state. *)
Lemma watch_highlights_run R w :
  let r := watch_highlights (Some R) w in
  fst r = Normal tt
  /\ setup (snd r) = setup w
  /\ emitted (snd r) = emitted w
  /\ monaco (snd r)
     = match highlights (setup w) with
       | Some c => snd (lib_collection_set c (transformMatch <$> R) (monaco w))
       | None => monaco w
       end.
Proof.
  unfold watch_highlights, bind, ret, get_setup, perform. simpl.
  destruct (highlights (setup w)); repeat split; reflexivity.
Qed.

(** X2: on a mounted component the highlights callback hands [set] one
    decoration for every array of the list, in the order of the list and
    in the highlight class, also where an array is no valid match range
    (too short, too long, or its ends reversed): the decoration for an
    array is what [transformMatch] makes of it, and nothing is filtered
    out before the call. *)
Theorem sync_keeps_every_match (w : World) (e c m : nat) (R : list (list Z)) :
  Mounted w e c m ->
  let r := watch_highlights (Some R) w in
  fst r = Normal tt
  /\ exists ds,
       calls (snd r) = calls w ++ [(collection_set c ds, monaco (snd r))]
       /\ length ds = length R
       /\ (forall i match_, R !! i = Some match_ ->
             ds !! i = Some (transformMatch match_))
       /\ Forall (fun d => inlineClassName (options d) = "monaco-highlight-span")
            ds.
Proof.
  intros HM r. subst r.
  destruct HM as (_ & Hc & _).
  destruct (watch_highlights_calls w c R Hc) as [Hn Hcalls].
  split; [exact Hn|].
  exists (transformMatch <$> R).
  split; [exact Hcalls|]. split; [apply length_fmap|]. split.
  - intros i match_ Hi. rewrite list_lookup_fmap, Hi. reflexivity.
  - apply Forall_fmap, Forall_forall. intros match_ _. reflexivity.
Qed.

(** X3: the last list of highlights wins: running the callback on [R1]
    and then on [R2] leaves the store that running it on [R2] alone
    leaves, in every state; nothing of [R1] is kept. *)
Theorem sync_last_wins (w : World) (R1 R2 : list (list Z)) :
  let w1 := snd (watch_highlights (Some R1) w) in
  fst (watch_highlights (Some R2) w1) = Normal tt
  /\ monaco (snd (watch_highlights (Some R2) w1))
     = monaco (snd (watch_highlights (Some R2) w)).
Proof.
  intros w1. subst w1.
  destruct (watch_highlights_run R1 w) as (_ & S1 & _ & M1).
  destruct (watch_highlights_run R2 (snd (watch_highlights (Some R1) w)))
    as (N2 & _ & _ & M2).
  destruct (watch_highlights_run R2 w) as (_ & _ & _ & M3).
  split; [exact N2|]. rewrite M2, M3, S1, M1.
  destruct (highlights (setup w)) as [c|]; [|reflexivity].
  apply lib_collection_set_twice.
Qed.

(** X4: the decorations the mount hook starts with are the ones the
    callback sets: mounting with the highlights [R] leaves the store
    that mounting with any other highlights and then running the callback
    on [R] leaves. *)
Theorem mount_initial_agrees_with_sync (w : World) (container : nat)
    (R : list (list Z)) :
  containerRef (setup w) = Some container ->
  monaco (snd (onMounted (with_highlights R w)))
  = monaco (snd (watch_highlights (Some R) (snd (onMounted w)))).
Proof.
  intros Hc.
  assert (Hc' : containerRef (setup (with_highlights R w)) = Some container)
    by exact Hc.
  destruct (onMounted_run _ container Hc') as (_ & M1 & _).
  destruct (onMounted_run w container Hc) as (_ & M2 & S2 & _).
  destruct (watch_highlights_run R (snd (onMounted w))) as (_ & _ & _ & M3).
  rewrite M1, M3, S2, M2. simpl.
  unfold lib_collection_set, lib_getModel, mounted_monaco. simpl.
  rewrite lookup_snoc. simpl. rewrite lookup_snoc. simpl.
  rewrite alter_snoc. reflexivity.
Qed.

(** X5: the highlights callback touches nothing but the decorations of
    the collection in [highlights]: the variables of the script, the
    emitted events, the editors, the models, the number of collections,
    the owner of every collection and every other collection are as
    before, whether it returns or throws. *)
Theorem sync_frame (w : World) (v : option (list (list Z))) :
  let r := watch_highlights v w in
  setup (snd r) = setup w
  /\ emitted (snd r) = emitted w
  /\ editors (monaco (snd r)) = editors (monaco w)
  /\ models (monaco (snd r)) = models (monaco w)
  /\ length (collections (monaco (snd r))) = length (collections (monaco w))
  /\ (forall c, owner <$> collections (monaco (snd r)) !! c
                = owner <$> collections (monaco w) !! c)
  /\ (forall c, highlights (setup w) <> Some c ->
        collections (monaco (snd r)) !! c = collections (monaco w) !! c).
Proof.
  intros r. subst r.
  destruct v as [R|]; [|repeat split; reflexivity].
  destruct (watch_highlights_run R w) as (_ & S1 & E1 & M1).
  rewrite S1, E1, M1.
  destruct (highlights (setup w)) as [c0|]; [|repeat split; reflexivity].
  unfold lib_collection_set. simpl.
  destruct (collections (monaco w) !! c0 ≫= _); [|repeat split; reflexivity].
  simpl. split; [reflexivity|]. split; [reflexivity|].
  split; [reflexivity|]. split; [reflexivity|].
  split; [apply length_alter|]. split.
  - intros c. destruct (decide (c0 = c)) as [->|Hne].
    + rewrite list_lookup_alter_eq.
      destruct (collections (monaco w) !! c); reflexivity.
    + rewrite list_lookup_alter_ne by exact Hne. reflexivity.
  - intros c Hc. apply list_lookup_alter_ne. congruence.
Qed.

(** ** Further properties: the language callback *)

Lemma or_string_empty v : or_string v "" = default "" v.
Proof.
  destruct v as [s|]; [|reflexivity]. unfold or_string, strict_eq. simpl.
  destruct (String.eqb_spec s ""); congruence.
Qed.

(** What the callback leaves alone, whatever the state. *)
Lemma watch_language_frame lang w :
  let r := watch_language lang w in
  fst r = Normal tt /\ setup (snd r) = setup w /\ emitted (snd r) = emitted w.
Proof.
  unfold watch_language, bind, ret, get_setup, perform. simpl.
  destruct (editor (setup w)) as [e|]; simpl; [|repeat split; reflexivity].
  destruct (editors (monaco w) !! e ≫= _); repeat split; reflexivity.
Qed.

Lemma watch_language_calls_without_editor lang w :
  editor (setup w) = None ->
  calls (snd (watch_language lang w))
  = calls w ++
    [(createModel (or_string (Props.modelValue (props (setup w))) "") lang,
      snd (lib_createModel
             (or_string (Props.modelValue (props (setup w))) "") lang
             (monaco w)))].
Proof.
  intros H. unfold watch_language, bind, ret, get_setup, perform. simpl.
  rewrite H. reflexivity.
Qed.

(** X6: while no editor exists, a change of language still asks for a
    model of the current [modelValue] and the new language, by one call
    of [createModel] and no other call; the store gains one model, of
    this text and not disposed; in a world the component can reach this
    model is shown by no editor, and nothing disposes it. *)
Theorem language_change_without_editor (w : World) (lang : string) :
  reachable w ->
  editor (setup w) = None ->
  let r := watch_language lang w in
  let v := or_string (Props.modelValue (props (setup w))) "" in
  let n := length (models (monaco w)) in
  fst r = Normal tt
  /\ (calls (snd r)).*1 = (calls w).*1 ++ [createModel v lang]
  /\ (exists mo,
        models (monaco (snd r)) = models (monaco w) ++ [mo]
        /\ text mo = v /\ modelDisposed mo = false)
  /\ editors (monaco (snd r)) = editors (monaco w)
  /\ forall e, shown (monaco (snd r)) e <> Some n.
Proof.
  intros Hr He r v n. subst r.
  pose proof (reachable_editors_ok w Hr) as Hok.
  destruct (watch_language_frame lang w) as (F1 & _ & _).
  pose proof (watch_language_monaco lang w) as HM. cbv zeta in HM.
  rewrite He in HM.
  split; [exact F1|].
  split.
  { rewrite (watch_language_calls_without_editor lang w He).
    rewrite fmap_app. reflexivity. }
  rewrite HM. simpl.
  split; [eexists; split; [reflexivity|split; reflexivity]|].
  split; [reflexivity|].
  intros e Hs. unfold shown in Hs. simpl in Hs.
  destruct (editors (monaco w) !! e) as [ed|] eqn:E; [|discriminate].
  simpl in Hs. destruct (Hok e ed E) as [_ Hlt].
  specialize (Hlt n Hs). subst n. lia.
Qed.

(** X7: the language callback never throws, and it leaves alone the
    variables of the script, the emitted events, the number of editors,
    the number of collections and the editor each of them belongs to,
    and every model other than the one [editor.value] showed. *)
Theorem language_change_frame (w : World) (lang : string) :
  let r := watch_language lang w in
  fst r = Normal tt
  /\ setup (snd r) = setup w
  /\ emitted (snd r) = emitted w
  /\ length (collections (monaco (snd r))) = length (collections (monaco w))
  /\ (forall c, owner <$> collections (monaco (snd r)) !! c
                = owner <$> collections (monaco w) !! c)
  /\ length (editors (monaco (snd r))) = length (editors (monaco w))
  /\ (forall m mo,
        models (monaco w) !! m = Some mo ->
        (forall e, editor (setup w) = Some e -> shown (monaco w) e <> Some m) ->
        models (monaco (snd r)) !! m = Some mo).
Proof.
  intros r. subst r.
  destruct (watch_language_frame lang w) as (F1 & F2 & F3).
  pose proof (watch_language_monaco lang w) as HM. cbv zeta in HM.
  split; [exact F1|]. split; [exact F2|]. split; [exact F3|].
  rewrite HM. clear HM.
  destruct (editor (setup w)) as [e|].
  - destruct (shown (monaco w) e) as [old|] eqn:S; simpl.
    + split; [reflexivity|]. split; [reflexivity|].
      split; [rewrite length_fmap, length_alter; reflexivity|].
      intros m mo Hm Hne.
      assert (old <> m) by (intros ->; exact (Hne e eq_refl S)).
      rewrite list_lookup_alter_ne by assumption.
      apply lookup_app_l_Some, Hm.
    + split; [reflexivity|]. split; [reflexivity|].
      split; [apply length_alter|].
      intros m mo Hm _. apply lookup_app_l_Some, Hm.
  - simpl. split; [reflexivity|]. split; [reflexivity|].
    split; [reflexivity|].
    intros m mo Hm _. apply lookup_app_l_Some, Hm.
Qed.

(** X8: a change of language right after mounting keeps the text: the
    editor shows a new model whose text is the text of the model the
    mount hook made, the callback having asked [createModel] for this
    text in the new language. *)
Theorem language_switch_keeps_text (w : World) (container : nat)
    (lang : string) :
  containerRef (setup w) = Some container ->
  let e := length (editors (monaco w)) in
  let w1 := snd (onMounted w) in
  let w2 := snd (watch_language lang w1) in
  exists m1 m2 t,
    shown (monaco w1) e = Some m1
    /\ shown (monaco w2) e = Some m2
    /\ m1 <> m2
    /\ text <$> models (monaco w1) !! m1 = Some t
    /\ text <$> models (monaco w2) !! m2 = Some t
    /\ (calls w2).*1
       = (calls w1).*1 ++
         [getModel e; createModel t lang; setModel e m2; model_dispose m1].
Proof.
  intros Hc e w1 w2.
  pose proof (onMounted_Mounted w container Hc) as HM. fold w1 e in HM.
  destruct (onMounted_run w container Hc) as (_ & M1 & S1 & _). fold w1 in M1, S1.
  pose proof (watch_language_run _ _ _ _ lang HM) as Hrun. cbv zeta in Hrun.
  pose proof (watch_language_calls _ _ _ _ lang HM) as Hcalls. fold w2 in Hcalls.
  destruct (watch_language_stores _ _ _ _ lang HM)
    as (Hn & _ & _ & Hs & _ & _ & _ & _ & _ & Hnew).
  assert (Ht : or_string (Props.modelValue (props (setup w1))) ""
               = default "" (Props.modelValue (props (setup w))))
    by (rewrite or_string_empty, S1; reflexivity).
  rewrite Ht in Hcalls.
  exists (length (models (monaco w))), (length (models (monaco w1))),
    (default "" (Props.modelValue (props (setup w)))).
  split; [apply HM|].
  split; [subst w2; rewrite Hrun; exact Hs|].
  split; [congruence|].
  split; [rewrite M1; unfold mounted_monaco; simpl; rewrite lookup_snoc;
          reflexivity|].
  split; [|exact Hcalls].
  subst w2. rewrite Hrun. cbn [snd monaco].
  etransitivity; [exact (f_equal (fmap (M:=option) text) Hnew)|].
  simpl. rewrite Ht. reflexivity.
Qed.

(** ** Further properties: what holds in every reachable world *)

Lemma lookup_alter_inv {A} (f : A -> A) (l : list A) i j y :
  alter f i l !! j = Some y ->
  exists x, l !! j = Some x /\ ((i = j /\ y = f x) \/ (i <> j /\ y = x)).
Proof.
  rewrite list_lookup_alter. destruct (decide (i = j)) as [->|Hne].
  - destruct (l !! j) as [x|]; [|discriminate]. simpl. intros [= <-].
    exists x. split; [reflexivity|]. left. split; reflexivity.
  - intros H. exists y. split; [exact H|]. right. split; [exact Hne|reflexivity].
Qed.

Lemma models_ok_update h e f :
  models_ok h ->
  (forall ed,
     editors h !! e = Some ed ->
     (editorDisposed (f ed) = false -> is_Some (attached (f ed)))
     /\ (forall m,
           attached (f ed) = Some m ->
           modelDisposed <$> models h !! m = Some false
           /\ forall e' ed',
                e' <> e -> editors h !! e' = Some ed' ->
                attached ed' <> Some m)) ->
  models_ok (update_editor e f h).
Proof.
  intros H Hf e1 ed1 Hl. unfold update_editor in *. simpl in *.
  apply lookup_alter_inv in Hl as (x & Hx & [[-> ->]|[Hne ->]]).
  - destruct (Hf x Hx) as [F1 F2]. split; [exact F1|]. split.
    + intros m Hm. apply (F2 m Hm).
    + intros e' ed' m Hl' Hm Hm'.
      apply lookup_alter_inv in Hl' as (x' & Hx' & [[<- ->]|[Hne' ->]]);
        [reflexivity|].
      destruct (F2 m Hm) as [_ Hfresh].
      exfalso. apply (Hfresh e' x'); [congruence|exact Hx'|exact Hm'].
  - destruct (H e1 x Hx) as (H1 & H2 & H3).
    split; [exact H1|]. split; [exact H2|].
    intros e' ed' m Hl' Hm Hm'.
    apply lookup_alter_inv in Hl' as (x' & Hx' & [[<- ->]|[Hne' ->]]).
    + destruct (Hf x' Hx') as [_ F2]. destruct (F2 m Hm') as [_ Hfresh].
      exfalso. apply (Hfresh e1 x); [congruence|exact Hx|exact Hm].
    + exact (H3 e' x' m Hx' Hm Hm').
Qed.

Lemma models_ok_same h h' :
  editors h' = editors h ->
  (forall m, modelDisposed <$> models h !! m = Some false ->
             modelDisposed <$> models h' !! m = Some false) ->
  models_ok h -> models_ok h'.
Proof.
  intros He Hm H e ed Hl. rewrite He in Hl.
  destruct (H e ed Hl) as (H1 & H2 & H3).
  split; [exact H1|]. split.
  - intros m Ha. apply Hm, H2, Ha.
  - intros e' ed' m Hl'. rewrite He in Hl'. apply H3, Hl'.
Qed.

Lemma modelDisposed_app (ms : list TextModel) x (m : nat) :
  modelDisposed <$> ms !! m = Some false ->
  modelDisposed <$> (ms ++ [x]) !! m = Some false.
Proof.
  destruct (ms !! m) as [mo|] eqn:E; [|discriminate].
  rewrite (lookup_app_l_Some _ _ _ _ E). intros H. exact H.
Qed.

Lemma modelDisposed_set_text (ms : list TextModel) t (m' m : nat) :
  modelDisposed <$> ms !! m = Some false ->
  modelDisposed <$> alter (set_text t) m' ms !! m = Some false.
Proof.
  rewrite list_lookup_alter. destruct (decide (m' = m)) as [->|]; [|trivial].
  destruct (ms !! m); [|discriminate]. simpl. trivial.
Qed.

Lemma models_ok_model_dispose h m :
  models_ok h ->
  (forall e ed, editors h !! e = Some ed -> attached ed <> Some m) ->
  models_ok (snd (lib_model_dispose m h)).
Proof.
  intros H Hfree.
  assert (Hed : forall e ed,
            (detach m <$> editors h) !! e = Some ed -> editors h !! e = Some ed).
  { intros e ed Hl. rewrite list_lookup_fmap in Hl.
    destruct (editors h !! e) as [ed0|] eqn:E; [|discriminate].
    simpl in Hl. injection Hl as <-. unfold detach.
    rewrite bool_decide_eq_false_2 by exact (Hfree e ed0 E). reflexivity. }
  intros e ed Hl. simpl in *. apply Hed in Hl.
  destruct (H e ed Hl) as (H1 & H2 & H3).
  split; [exact H1|]. split.
  - intros m' Hm'. rewrite list_lookup_alter_ne; [exact (H2 m' Hm')|].
    intros ->. exact (Hfree e ed Hl Hm').
  - intros e' ed' m' Hl'. apply Hed in Hl'. exact (H3 e' ed' m' Hl').
Qed.

Lemma models_ok_mounted w container :
  editors_ok (monaco w) -> models_ok (monaco w) ->
  models_ok (mounted_monaco w container).
Proof.
  intros Hok H e ed Hl. unfold mounted_monaco in *. simpl in *.
  assert (Hnew : forall e' ed',
            (editors (monaco w) ++ [mounted_editor w container]) !! e' = Some ed' ->
            (editors (monaco w) !! e' = Some ed'
             /\ forall m, attached ed' = Some m -> m < length (models (monaco w)))
            \/ (e' = length (editors (monaco w))
                /\ ed' = mounted_editor w container)).
  { intros e' ed' Hl'. apply lookup_app_Some in Hl' as [Hl'|[Hge Hl']].
    - left. split; [exact Hl'|]. apply (Hok e' ed' Hl').
    - right. destruct (e' - length (editors (monaco w))) as [|k] eqn:Ek;
        [|destruct k; discriminate Hl'].
      simpl in Hl'. injection Hl' as <-. split; [lia|reflexivity]. }
  destruct (Hnew e ed Hl) as [[Hold Hlt]|[-> ->]].
  - destruct (H e ed Hold) as (H1 & H2 & H3).
    split; [exact H1|]. split.
    + intros m Hm. apply modelDisposed_app, H2, Hm.
    + intros e' ed' m Hl' Hm Hm'.
      destruct (Hnew e' ed' Hl') as [[Hold' _]|[-> ->]].
      * exact (H3 e' ed' m Hold' Hm Hm').
      * simpl in Hm'. injection Hm' as <-. specialize (Hlt _ Hm). lia.
  - simpl. split; [intros _; eexists; reflexivity|]. split.
    + intros m [= <-]. rewrite lookup_snoc. reflexivity.
    + intros e' ed' m Hl' [= <-] Hm'.
      destruct (Hnew e' ed' Hl') as [[_ Hlt]|[-> _]]; [|reflexivity].
      specialize (Hlt _ Hm'). lia.
Qed.

Lemma watch_language_models_ok lang w :
  editors_ok (monaco w) -> models_ok (monaco w) ->
  models_ok (monaco (snd (watch_language lang w))).
Proof.
  intros Hok H. rewrite watch_language_monaco. cbv zeta.
  set (v := or_string _ _).
  set (h2 := snd (lib_createModel v lang (monaco w))).
  assert (H2 : models_ok h2).
  { eapply models_ok_same; [| |exact H]; [reflexivity|].
    intros m. apply modelDisposed_app. }
  destruct (editor (setup w)) as [e|]; [|exact H2].
  set (n := length (models (monaco w))).
  assert (H3 : models_ok (snd (lib_setModel e n h2))).
  { apply models_ok_update; [exact H2|].
    intros ed Hed. split; [intros _; eexists; reflexivity|].
    intros m [= <-]. split; [subst n h2; simpl; rewrite lookup_snoc; reflexivity|].
    intros e' ed' _ Hl' Hm'. destruct (Hok e' ed' Hl') as [_ Hlt].
    specialize (Hlt _ Hm'). subst n. lia. }
  destruct (shown (monaco w) e) as [old|] eqn:S; [|exact H3].
  apply models_ok_model_dispose; [exact H3|].
  unfold shown in S.
  destruct (editors (monaco w) !! e) as [ed0|] eqn:E; [|discriminate].
  simpl in S. destruct (Hok e ed0 E) as [_ Hlt]. specialize (Hlt _ S).
  destruct (H e ed0 E) as (_ & _ & Huniq).
  intros e' ed' Hl' Hm'. simpl in Hl'.
  apply lookup_alter_inv in Hl' as (x & Hx & [[<- ->]|[Hne ->]]).
  - simpl in Hm'. injection Hm' as <-. subst n. lia.
  - apply Hne. symmetry. exact (Huniq e' x old Hx S Hm').
Qed.

Lemma step_models_ok st w :
  editors_ok (monaco w) -> models_ok (monaco w) ->
  models_ok (monaco (snd (step st w))).
Proof.
  intros Hok H. destruct st as [| |v|lang|v|c|e t|e ev]; simpl.
  - destruct (containerRef (setup w)) as [container|] eqn:E.
    + destruct (onMounted_run w container E) as (_ & -> & _).
      apply models_ok_mounted; assumption.
    + rewrite (onMounted_skip w E). exact H.
  - destruct (editor (setup w)) as [e|] eqn:E.
    + rewrite (onBeforeUnmount_run w e E). simpl.
      apply models_ok_update; [exact H|].
      intros ed _. split; [discriminate|]. intros m Hm. discriminate Hm.
    + rewrite (onBeforeUnmount_skip w E). exact H.
  - unfold set_prop_highlights.
    rewrite (bind_normal _ _ w (setup w)) by reflexivity.
    rewrite (bind_normal _ _ _ tt) by reflexivity.
    assert (F : forall w', monaco w' = monaco w ->
                models_ok (monaco (snd (watch_highlights v w')))).
    { intros w' Hw'. destruct (watch_highlights_frame v w') as [F1 F2].
      eapply models_ok_same; [rewrite F1, Hw'; reflexivity| |exact H].
      rewrite F2, Hw'. trivial. }
    destruct (Props.highlights (props (setup w))), v;
      first [exact H | apply F; reflexivity].
  - unfold set_prop_language.
    rewrite (bind_normal _ _ w (setup w)) by reflexivity.
    rewrite (bind_normal _ _ _ tt) by reflexivity.
    destruct (strict_eq lang _); [exact H|].
    apply watch_language_models_ok; assumption.
  - exact H.
  - exact H.
  - destruct (edit_run e t w) as (_ & F1 & _ & F4).
    destruct (editors (monaco w) !! e) as [ed|] eqn:E.
    + destruct (attached ed) as [m|] eqn:A.
      * destruct (F4 ed m eq_refl A) as [M1 _].
        eapply models_ok_same; [exact F1| |exact H].
        rewrite M1. intros m'. apply modelDisposed_set_text.
      * unfold edit. rewrite (bind_normal _ _ w (monaco w)) by reflexivity.
        simpl. rewrite E, A. exact H.
    + unfold edit. rewrite (bind_normal _ _ w (monaco w)) by reflexivity.
      simpl. rewrite E. exact H.
  - destruct (move_cursor_run e ev w) as (_ & -> & _). exact H.
Qed.

Lemma reachable_models_ok w : reachable w -> models_ok (monaco w).
Proof.
  induction 1 as [a container|w st Hr IH].
  - intros e ed Hl. simpl in Hl. rewrite lookup_nil in Hl. discriminate Hl.
  - apply step_models_ok; [apply reachable_editors_ok, Hr|exact IH].
Qed.

(** X10: in every world the component can reach, an editor that is not
    disposed shows a model, this model is in the store and not disposed,
    and no other editor shows it: no operation of the component leaves a
    live editor without a model or on a disposed one. *)
Theorem reachable_one_model_per_editor (w : World) (e : nat) :
  reachable w ->
  live (monaco w) e ->
  exists m mo,
    shown (monaco w) e = Some m
    /\ models (monaco w) !! m = Some mo
    /\ modelDisposed mo = false
    /\ forall e', shown (monaco w) e' = Some m -> e' = e.
Proof.
  intros Hr Hl. pose proof (reachable_models_ok w Hr) as H.
  unfold live in Hl.
  destruct (editors (monaco w) !! e) as [ed|] eqn:E; [|discriminate].
  simpl in Hl. injection Hl as Hd.
  destruct (H e ed E) as (H1 & H2 & H3).
  destruct (H1 Hd) as [m Hm]. specialize (H2 m Hm).
  destruct (models (monaco w) !! m) as [mo|] eqn:Em; [|discriminate].
  simpl in H2. injection H2 as H2.
  exists m, mo. unfold shown. rewrite E. simpl.
  split; [exact Hm|]. split; [exact Em|]. split; [exact H2|].
  intros e' Hs.
  destruct (editors (monaco w) !! e') as [ed'|] eqn:E'; [|discriminate].
  simpl in Hs. exact (H3 e' ed' m E' Hm Hs).
Qed.

(** What an editor event leaves alone. *)
Lemma edit_rest e t w :
  setup (snd (edit e t w)) = setup w
  /\ collections (monaco (snd (edit e t w))) = collections (monaco w).
Proof.
  unfold edit. rewrite (bind_normal _ _ w (monaco w)) by reflexivity.
  change (snd (get_monaco w)) with w.
  destruct (editors (monaco w) !! e) as [ed|]; [|split; reflexivity].
  destruct (attached ed) as [m|]; [|split; reflexivity].
  cbv zeta. rewrite (bind_normal _ _ w tt) by reflexivity.
  match goal with |- context [fire _ _ ?w'] =>
    destruct (fire_content (contentListeners ed) w') as (_ & I2 & I3 & _)
  end.
  rewrite I2, I3. split; reflexivity.
Qed.

Lemma move_cursor_setup e ev w : setup (snd (move_cursor e ev w)) = setup w.
Proof.
  unfold move_cursor. rewrite (bind_normal _ _ w (monaco w)) by reflexivity.
  change (snd (get_monaco w)) with w.
  destruct (editors (monaco w) !! e) as [ed|]; [|reflexivity].
  apply (fire_cursor ev (cursorListeners ed) w).
Qed.

Lemma watch_highlights_rest v w :
  setup (snd (watch_highlights v w)) = setup w
  /\ emitted (snd (watch_highlights v w)) = emitted w
  /\ forall c x,
       owner <$> collections (monaco w) !! c = Some x ->
       owner <$> collections (monaco (snd (watch_highlights v w))) !! c = Some x.
Proof.
  destruct v as [R|]; [|repeat split; trivial].
  destruct (watch_highlights_run R w) as (_ & S1 & E1 & M1).
  rewrite S1, E1, M1. split; [reflexivity|]. split; [reflexivity|].
  destruct (highlights (setup w)) as [c0|]; [|trivial].
  unfold lib_collection_set. simpl.
  destruct (collections (monaco w) !! c0 ≫= _); [|trivial]. simpl.
  intros c x. rewrite list_lookup_alter.
  destruct (decide (c0 = c)) as [->|]; [|trivial].
  destruct (collections (monaco w) !! c); trivial.
Qed.

Lemma watch_language_rest lang w :
  collections (monaco (snd (watch_language lang w))) = collections (monaco w)
  /\ length (editors (monaco (snd (watch_language lang w))))
     = length (editors (monaco w)).
Proof.
  rewrite watch_language_monaco. cbv zeta.
  destruct (editor (setup w)) as [e|]; [|split; reflexivity].
  destruct (shown (monaco w) e); simpl.
  - split; [reflexivity|]. rewrite length_fmap, length_alter. reflexivity.
  - split; [reflexivity|]. apply length_alter.
Qed.

Lemma vars_ok_frame w w' :
  editor (setup w') = editor (setup w) ->
  highlights (setup w') = highlights (setup w) ->
  length (editors (monaco w)) <= length (editors (monaco w')) ->
  (forall c x,
     owner <$> collections (monaco w) !! c = Some x ->
     owner <$> collections (monaco w') !! c = Some x) ->
  vars_ok w -> vars_ok w'.
Proof.
  intros He Hh Hl Ho [V1 V2]. unfold vars_ok. rewrite He, Hh.
  split; [exact V1|]. intros e Hed.
  destruct (V2 e Hed) as (Hlt & c & Hc & Hown).
  split; [lia|]. exists c. split; [exact Hc|]. apply Ho, Hown.
Qed.

Lemma step_vars_ok st w : vars_ok w -> vars_ok (snd (step st w)).
Proof.
  intros H. destruct st as [| |v|lang|v|c|e t|e ev]; simpl.
  - destruct (containerRef (setup w)) as [container|] eqn:E.
    + destruct (onMounted_run w container E) as (_ & M & S & _).
      unfold vars_ok. rewrite M, S. unfold mounted_monaco. simpl.
      split; [split; discriminate|].
      intros e' [= <-]. split; [rewrite length_app; simpl; lia|].
      eexists. split; [reflexivity|]. rewrite lookup_snoc. reflexivity.
    + rewrite (onMounted_skip w E). exact H.
  - destruct (editor (setup w)) as [e|] eqn:E.
    + rewrite (onBeforeUnmount_run w e E).
      eapply vars_ok_frame; [| | | |exact H]; simpl; trivial.
      rewrite length_alter. lia.
    + rewrite (onBeforeUnmount_skip w E). exact H.
  - unfold set_prop_highlights.
    rewrite (bind_normal _ _ w (setup w)) by reflexivity.
    rewrite (bind_normal _ _ _ tt) by reflexivity.
    assert (F : forall w',
               editor (setup w') = editor (setup w) ->
               highlights (setup w') = highlights (setup w) ->
               monaco w' = monaco w ->
               vars_ok (snd (watch_highlights v w'))).
    { intros w' He Hh Hm.
      destruct (watch_highlights_rest v w') as (S1 & _ & O1).
      destruct (watch_highlights_frame v w') as [F1 _].
      eapply vars_ok_frame; [| | | |exact H].
      - rewrite S1. exact He.
      - rewrite S1. exact Hh.
      - rewrite F1, Hm. lia.
      - intros c x Hx. apply O1. rewrite Hm. exact Hx. }
    destruct (Props.highlights (props (setup w))), v;
      first [apply F; reflexivity
            | eapply vars_ok_frame; [| | | |exact H]; simpl; trivial].
  - unfold set_prop_language.
    rewrite (bind_normal _ _ w (setup w)) by reflexivity.
    rewrite (bind_normal _ _ _ tt) by reflexivity.
    destruct (strict_eq lang _);
      [eapply vars_ok_frame; [| | | |exact H]; simpl; trivial|].
    match goal with |- vars_ok (snd (watch_language lang ?w')) =>
      destruct (watch_language_frame lang w') as (_ & S1 & _);
      destruct (watch_language_rest lang w') as (C1 & L1)
    end.
    eapply vars_ok_frame; [| | | |exact H].
    + rewrite S1. reflexivity.
    + rewrite S1. reflexivity.
    + rewrite L1. simpl. lia.
    + intros c x Hx. rewrite C1. exact Hx.
  - eapply vars_ok_frame; [| | | |exact H]; simpl; trivial.
  - eapply vars_ok_frame; [| | | |exact H]; simpl; trivial.
  - destruct (edit_rest e t w) as [S1 C1].
    destruct (edit_run e t w) as (_ & F1 & _).
    eapply vars_ok_frame; [| | | |exact H].
    + rewrite S1. reflexivity.
    + rewrite S1. reflexivity.
    + rewrite F1. lia.
    + intros c x Hx. rewrite C1. exact Hx.
  - destruct (move_cursor_run e ev w) as (_ & M1 & _).
    eapply vars_ok_frame; [| | | |exact H].
    + rewrite move_cursor_setup. reflexivity.
    + rewrite move_cursor_setup. reflexivity.
    + rewrite M1. lia.
    + intros c x Hx. rewrite M1. exact Hx.
Qed.

(** X11: in every world the component can reach, [editor.value] and
    [highlights] are both unset or both set; when set, [editor.value] is
    an editor of the store and [highlights] is a collection that was
    created on this very editor. *)
Theorem reachable_vars_together (w : World) :
  reachable w ->
  (editor (setup w) = None <-> highlights (setup w) = None)
  /\ (forall e, editor (setup w) = Some e ->
        is_Some (editors (monaco w) !! e)
        /\ exists c, highlights (setup w) = Some c
                     /\ owner <$> collections (monaco w) !! c = Some e).
Proof.
  intros Hr.
  assert (H : vars_ok w).
  { induction Hr as [a container|w st _ IH].
    - split; [split; reflexivity|]. intros e He. discriminate He.
    - apply step_vars_ok, IH. }
  destruct H as [V1 V2]. split; [exact V1|].
  intros e He. destruct (V2 e He) as [Hlt Hc].
  split; [apply lookup_lt_is_Some_2, Hlt|exact Hc].
Qed.

(** X12: the component emits on events of the editor only: mounting,
    unmounting and a change of any prop leave the emitted events as they
    are, so that no change made by the parent is echoed back to it. *)
Theorem only_editor_events_emit (w : World) (st : Step) :
  is_editor_event st = false ->
  emitted (snd (step st w)) = emitted w.
Proof.
  intros H. destruct st as [| |v|lang|v|c|e t|e ev]; try discriminate H;
    simpl.
  - destruct (containerRef (setup w)) as [container|] eqn:E.
    + apply (onMounted_run w container E).
    + rewrite (onMounted_skip w E). reflexivity.
  - destruct (editor (setup w)) as [e|] eqn:E.
    + rewrite (onBeforeUnmount_run w e E). reflexivity.
    + rewrite (onBeforeUnmount_skip w E). reflexivity.
  - unfold set_prop_highlights.
    rewrite (bind_normal _ _ w (setup w)) by reflexivity.
    rewrite (bind_normal _ _ _ tt) by reflexivity.
    destruct (Props.highlights (props (setup w))), v; try reflexivity;
      match goal with |- emitted (snd (watch_highlights ?v ?w')) = _ =>
        destruct (watch_highlights_rest v w') as (_ & -> & _); reflexivity
      end.
  - unfold set_prop_language.
    rewrite (bind_normal _ _ w (setup w)) by reflexivity.
    rewrite (bind_normal _ _ _ tt) by reflexivity.
    destruct (strict_eq lang _); [reflexivity|].
    match goal with |- emitted (snd (watch_language lang ?w')) = _ =>
      destruct (watch_language_frame lang w') as (_ & _ & ->); reflexivity
    end.
  - reflexivity.
  - reflexivity.
Qed.

(** ** Further properties: how the operations compose *)

Lemma Mounted_after_edit w e c m t :
  Mounted w e c m -> Mounted (snd (edit e t w)) e c m.
Proof.
  intros HM.
  destruct (Mounted_objects _ _ _ _ HM) as (ed & mo & Hed & Hat & Hmo & Hd & _).
  destruct HM as (He & Hc & Hs & Hdis & Hown).
  destruct (edit_rest e t w) as [S1 C1].
  destruct (edit_run e t w) as (_ & F1 & _ & F4).
  destruct (F4 ed m Hed Hat) as [M1 _].
  unfold Mounted, shown. rewrite S1, C1, F1, M1.
  repeat split; try assumption.
  exact (modelDisposed_set_text _ t m m Hdis).
Qed.

Lemma Mounted_after_language w e c m lang :
  Mounted w e c m ->
  Mounted (snd (watch_language lang w)) e c (length (models (monaco w))).
Proof.
  intros HM.
  destruct (watch_language_frame lang w) as (_ & S1 & _).
  destruct (watch_language_rest lang w) as [C1 _].
  destruct (watch_language_stores _ _ _ _ lang HM)
    as (_ & _ & _ & Hs & _ & _ & _ & _ & _ & Hnew).
  pose proof (watch_language_run _ _ _ _ lang HM) as Hrun. cbv zeta in Hrun.
  destruct HM as (He & Hc & _ & _ & Hown).
  unfold Mounted. rewrite S1, C1.
  split; [exact He|]. split; [exact Hc|].
  rewrite Hrun. cbn [snd monaco].
  split; [exact Hs|]. split; [exact (f_equal (fmap modelDisposed) Hnew)|].
  exact Hown.
Qed.

(** X13: the callbacks and the edits keep the component mounted: after a
    change of language [editor.value] shows the new model, not disposed,
    and [highlights] is still the collection of this editor; after a
    change of highlights or an edit it shows the model it showed.  The
    statements on a mounted component therefore hold again after each of
    them. *)
Theorem mounted_preserved (w : World) (e c m : nat) :
  Mounted w e c m ->
  (forall lang,
     Mounted (snd (watch_language lang w)) e c (length (models (monaco w))))
  /\ (forall R, Mounted (snd (watch_highlights (Some R) w)) e c m)
  /\ (forall t, Mounted (snd (edit e t w)) e c m).
Proof.
  intros HM. split; [|split].
  - intros lang. exact (Mounted_after_language w e c m lang HM).
  - intros R.
    destruct (watch_highlights_rest (Some R) w) as (S1 & _ & O1).
    destruct (watch_highlights_frame (Some R) w) as [F1 F2].
    destruct HM as (He & Hc & Hs & Hdis & Hown).
    unfold Mounted, shown. rewrite S1, F1, F2.
    repeat split; try assumption. apply O1, Hown.
  - intros t. exact (Mounted_after_edit w e c m t HM).
Qed.

(** X9: text typed into the editor survives a change of language when
    the parent feeds the emitted text back into [modelValue], as a
    [v-model] binding does: after an edit that leaves the text [t], the
    last event emitted carries [t], and once [modelValue] is [t] a change
    of language asks [createModel] for the text [t] in the new language
    and makes the editor show a new model with the text [t]. *)
Theorem edit_feedback_language_switch (w : World) (e c m : nat)
    (t lang : string) :
  reachable w ->
  Mounted w e c m ->
  live (monaco w) e ->
  let w1 := snd (edit e t w) in
  let w2 := snd (set_prop_modelValue (Some t) w1) in
  let r := watch_language lang w2 in
  last (emitted w1) = Some (update_modelValue t)
  /\ fst r = Normal tt
  /\ exists n,
       (calls (snd r)).*1
       = (calls w2).*1 ++
         [getModel e; createModel t lang; setModel e n; model_dispose m]
       /\ shown (monaco (snd r)) e = Some n
       /\ text <$> models (monaco (snd r)) !! n = Some t
       /\ modelDisposed <$> models (monaco (snd r)) !! n = Some false.
Proof.
  intros Hr HM Hl w1 w2 r.
  pose proof (reachable_editors_ok w Hr) as Hok.
  destruct (Mounted_objects _ _ _ _ HM) as (ed & mo & Hed & Hat & Hmo & _ & Hlt).
  unfold live in Hl. rewrite Hed in Hl. simpl in Hl. injection Hl as Hd.
  destruct (Hok e ed Hed) as [HL _]. destruct (HL Hd) as [Lc _].
  split.
  { subst w1. destruct (edit_run e t w) as (_ & _ & _ & R4).
    destruct (R4 ed m Hed Hat) as [_ M2]. rewrite M2, Lc. simpl.
    rewrite last_snoc. do 2 f_equal.
    rewrite Hed. simpl. rewrite Hat. simpl.
    rewrite list_lookup_alter_eq, Hmo. reflexivity. }
  assert (HM2 : Mounted w2 e c m) by exact (Mounted_after_edit w e c m t HM).
  subst r.
  pose proof (watch_language_run _ _ _ _ lang HM2) as Hrun. cbv zeta in Hrun.
  pose proof (watch_language_calls _ _ _ _ lang HM2) as Hcalls.
  destruct (watch_language_stores _ _ _ _ lang HM2)
    as (_ & _ & _ & Hs & _ & _ & _ & _ & _ & Hnew).
  assert (Ht : or_string (Props.modelValue (props (setup w2))) "" = t)
    by apply or_string_empty.
  rewrite Ht in Hcalls.
  split; [rewrite Hrun; reflexivity|].
  exists (length (models (monaco w2))).
  split; [exact Hcalls|].
  rewrite Hrun. cbn [snd monaco].
  split; [exact Hs|]. split.
  - etransitivity; [exact (f_equal (fmap (M:=option) text) Hnew)|].
    exact (f_equal Some Ht).
  - exact (f_equal (fmap (M:=option) modelDisposed) Hnew).
Qed.

(** ** The further properties at work *)

Lemma sync_keeps_every_match_witness :
  Mounted sample_world 0 0 0
  /\ fst (watch_highlights (Some [[3; 1; 2; 9]; [1]]%Z) sample_world)
     = Normal tt.
Proof.
  assert (HM : Mounted sample_world 0 0 0)
    by (unfold Mounted; repeat split; reflexivity).
  split; [exact HM|].
  exact (proj1 (sync_keeps_every_match _ _ _ _ [[3; 1; 2; 9]; [1]]%Z HM)).
Defined.

Lemma mount_initial_agrees_with_sync_witness :
  containerRef (setup (init no_attrs (Some 0))) = Some 0
  /\ monaco (snd (onMounted
       (with_highlights [[0; 0; 0; 5]%Z] (init no_attrs (Some 0)))))
     = monaco (snd (watch_highlights (Some [[0; 0; 0; 5]%Z])
         (snd (onMounted (init no_attrs (Some 0)))))).
Proof.
  assert (Hc : containerRef (setup (init no_attrs (Some 0))) = Some 0)
    by reflexivity.
  split; [exact Hc|].
  exact (mount_initial_agrees_with_sync _ 0 [[0; 0; 0; 5]%Z] Hc).
Defined.

Lemma language_change_without_editor_witness :
  reachable sample_unmounted
  /\ editor (setup sample_unmounted) = None
  /\ fst (watch_language "python" sample_unmounted) = Normal tt.
Proof.
  assert (Hr : reachable sample_unmounted)
    by exact (reachable_init sample_attrs None).
  assert (He : editor (setup sample_unmounted) = None) by reflexivity.
  split; [exact Hr|]. split; [exact He|].
  exact (proj1 (language_change_without_editor _ "python" Hr He)).
Defined.

Lemma language_switch_keeps_text_witness :
  containerRef (setup (init sample_attrs (Some 0))) = Some 0
  /\ exists m1 m2,
       shown (monaco sample_world) 0 = Some m1
       /\ shown (monaco (snd (watch_language "python" sample_world))) 0
          = Some m2
       /\ m1 <> m2.
Proof.
  assert (Hc : containerRef (setup (init sample_attrs (Some 0))) = Some 0)
    by reflexivity.
  split; [exact Hc|].
  destruct (language_switch_keeps_text _ 0 "python" Hc)
    as (m1 & m2 & t & H1 & H2 & H3 & _).
  exists m1, m2. split; [exact H1|]. split; [exact H2|exact H3].
Defined.

Lemma edit_feedback_language_switch_witness :
  reachable sample_world
  /\ Mounted sample_world 0 0 0
  /\ live (monaco sample_world) 0
  /\ last (emitted (snd (edit 0 "print(12)" sample_world)))
     = Some (update_modelValue "print(12)").
Proof.
  assert (Hr : reachable sample_world)
    by exact (reachable_step _ do_mount (reachable_init sample_attrs (Some 0))).
  assert (HM : Mounted sample_world 0 0 0)
    by (unfold Mounted; repeat split; reflexivity).
  assert (Hl : live (monaco sample_world) 0) by reflexivity.
  split; [exact Hr|]. split; [exact HM|]. split; [exact Hl|].
  exact (proj1 (edit_feedback_language_switch _ _ _ _ "print(12)" "python"
                  Hr HM Hl)).
Defined.

Lemma reachable_one_model_per_editor_witness :
  reachable sample_world
  /\ live (monaco sample_world) 0
  /\ exists m, shown (monaco sample_world) 0 = Some m.
Proof.
  assert (Hr : reachable sample_world)
    by exact (reachable_step _ do_mount (reachable_init sample_attrs (Some 0))).
  assert (Hl : live (monaco sample_world) 0) by reflexivity.
  split; [exact Hr|]. split; [exact Hl|].
  destruct (reachable_one_model_per_editor _ _ Hr Hl) as (m & _ & Hs & _).
  exists m. exact Hs.
Defined.

Lemma reachable_vars_together_witness :
  reachable sample_world
  /\ (editor (setup sample_world) = None
      <-> highlights (setup sample_world) = None).
Proof.
  assert (Hr : reachable sample_world)
    by exact (reachable_step _ do_mount (reachable_init sample_attrs (Some 0))).
  split; [exact Hr|]. exact (proj1 (reachable_vars_together _ Hr)).
Defined.

Lemma only_editor_events_emit_witness :
  is_editor_event (do_language "python") = false
  /\ emitted (snd (step (do_language "python") sample_world))
     = emitted sample_world.
Proof.
  assert (H : is_editor_event (do_language "python") = false) by reflexivity.
  split; [exact H|]. exact (only_editor_events_emit sample_world _ H).
Defined.

Lemma mounted_preserved_witness :
  Mounted sample_world 0 0 0
  /\ Mounted (snd (watch_language "python" sample_world)) 0 0 1.
Proof.
  assert (HM : Mounted sample_world 0 0 0)
    by (unfold Mounted; repeat split; reflexivity).
  split; [exact HM|]. exact (proj1 (mounted_preserved _ _ _ _ HM) "python").
Defined.
